(** * Flame::EditorCamera (src/Camera/EditorCamera.h)

    A shallow embedding of the editor camera: the movement bit flags, the
    projection specification, the camera state and its mutators
    ([SetCameraSpec], [SetPosition], [SetOrientation], [OnUpdate]) together
    with the two private recomputations ([UpdateProjection], [UpdateView]).

    The C++ code computes on [float].  The embedding is written once over an
    interface of scalar operations ([Scalar]); every statement that only
    depends on the data flow of the code is proved for an arbitrary
    implementation of that interface.  Two implementations follow.  [F32]
    is the arithmetic of the program: IEEE 754 binary32 with its rounding,
    signed zeros, infinities and NaN, over a C library whose sine, cosine,
    tangent, arcsine and arctangent are left open; the statements about
    the pitch tests, the movement vector and the position are proved
    there.  [RScalar] reads [float] as the real numbers and the libm
    functions as their mathematical counterparts; it serves the statements
    about the angles the code stores and converts. *)

From Stdlib Require Import ZArith Bool List Reals Lra Lia RNsatz SpecFloat.
Import ListNotations.

Set Implicit Arguments.

(** ** Scalars *)

(** The operations the header uses on [float]: the arithmetic operators, the
    comparison behind [<] and [>], the conversion of an integer (literals
    and [static_cast<float>]), the <cmath> functions, and the two literals
    GLM multiplies by in [glm::radians] and [glm::degrees].  The decimal
    literal [0.1f] is written as the quotient of 1 by 10. *)
Class Scalar : Type := {
  float : Type;
  ofZ : Z -> float;
  fadd : float -> float -> float;
  fsub : float -> float -> float;
  fmul : float -> float -> float;
  fdiv : float -> float -> float;
  fneg : float -> float;
  fltb : float -> float -> bool;
  fsqrt : float -> float;
  fsin : float -> float;
  fcos : float -> float;
  ftan : float -> float;
  fasin : float -> float;
  fatan2 : float -> float -> float;
  deg2rad : float;
  rad2deg : float
}.

Declare Scope float_scope.
Delimit Scope float_scope with flt.
Bind Scope float_scope with float.
Infix "+" := fadd : float_scope.
Infix "-" := fsub : float_scope.
Infix "*" := fmul : float_scope.
Infix "/" := fdiv : float_scope.
Notation "- x" := (fneg x) : float_scope.
Infix "<?" := fltb : float_scope.
Notation "x >? y" := (fltb y x) : float_scope.

(** ** Movement flags *)

Inductive CameraMovement : Type :=
  | Forward | Backward | Left | Right | Up | Down.

(** The enumerators' values, [1 << 0] to [1 << 5], as [uint32_t]. *)
Definition movement_bits (m : CameraMovement) : Z :=
  match m with
  | Forward => Z.shiftl 1 0
  | Backward => Z.shiftl 1 1
  | Left => Z.shiftl 1 2
  | Right => Z.shiftl 1 3
  | Up => Z.shiftl 1 4
  | Down => Z.shiftl 1 5
  end.

Definition CameraMovement_eqb (a b : CameraMovement) : bool :=
  match a, b with
  | Forward, Forward | Backward, Backward | Left, Left
  | Right, Right | Up, Up | Down, Down => true
  | _, _ => false
  end.

(** [~x] on [uint32_t]. *)
Definition not32 (x : Z) : Z := Z.lxor x (Z.ones 32).

Record CameraMovementFlags : Type := MkFlags { mFlags : Z }.

Definition Flags_empty : CameraMovementFlags := MkFlags 0.

Definition Flags_of (movement : CameraMovement) : CameraMovementFlags :=
  MkFlags (movement_bits movement).

Definition SetFlag (movement : CameraMovement) (fl : CameraMovementFlags)
  : CameraMovementFlags :=
  MkFlags (Z.lor (mFlags fl) (movement_bits movement)).

Definition ClearFlag (movement : CameraMovement) (fl : CameraMovementFlags)
  : CameraMovementFlags :=
  MkFlags (Z.land (mFlags fl) (not32 (movement_bits movement))).

Definition HasFlag (fl : CameraMovementFlags) (movement : CameraMovement)
  : bool :=
  negb (Z.land (mFlags fl) (movement_bits movement) =? 0)%Z.

Definition ClearAll (fl : CameraMovementFlags) : CameraMovementFlags :=
  MkFlags 0.

(** ** Vectors, matrices and the camera over a scalar implementation *)

Section Camera.

Context {S : Scalar}.
Local Open Scope float_scope.

Record vec2 : Type := MkVec2 { x2 : float; y2 : float }.
Record vec3 : Type := MkVec3 { vx : float; vy : float; vz : float }.
Record vec4 : Type :=
  MkVec4 { wx : float; wy : float; wz : float; ww : float }.

(** GLM matrices are stored by column: [m[i]] is column [i] and [m[i][j]]
    its component [j]. *)
Record mat3 : Type := MkMat3 { col0 : vec3; col1 : vec3; col2 : vec3 }.
Record mat4 : Type :=
  MkMat4 { mcol0 : vec4; mcol1 : vec4; mcol2 : vec4; mcol3 : vec4 }.

Definition vec3_splat (a : float) : vec3 := MkVec3 a a a.

Definition vadd (a b : vec3) : vec3 :=
  MkVec3 (vx a + vx b) (vy a + vy b) (vz a + vz b).

Definition vsub (a b : vec3) : vec3 :=
  MkVec3 (vx a - vx b) (vy a - vy b) (vz a - vz b).

Definition vscale (a : vec3) (s : float) : vec3 :=
  MkVec3 (vx a * s) (vy a * s) (vz a * s).

(** [glm::mat4(1.0f)]: the diagonal matrix. *)
Definition mat4_diag (d : float) : mat4 :=
  let z := ofZ 0 in
  MkMat4 (MkVec4 d z z z) (MkVec4 z d z z) (MkVec4 z z d z) (MkVec4 z z z d).

(** *** GLM functions

    GLM is an external header library; the functions the camera calls are
    written here as GLM's reference implementations define them (GLM's
    default configuration: right-handed, clip depth from -1 to 1). *)

(** Modelled from the spec: glm::radians is not in the repository; degrees
    to radians, the multiplication by the literal for pi/180. *)
Definition radians (degs : float) : float := degs * deg2rad.

(** Modelled from the spec: glm::degrees is not in the repository; radians
    to degrees, the multiplication by the literal for 180/pi. *)
Definition degrees (rads : float) : float := rads * rad2deg.

(** Modelled from the spec: glm::dot is not in the repository. *)
Definition dot (a b : vec3) : float :=
  vx a * vx b + vy a * vy b + vz a * vz b.

(** Modelled from the spec: glm::cross is not in the repository. *)
Definition cross (a b : vec3) : vec3 :=
  MkVec3 (vy a * vz b - vy b * vz a)
         (vz a * vx b - vz b * vx a)
         (vx a * vy b - vx b * vy a).

(** Modelled from the spec: glm::inversesqrt is not in the repository. *)
Definition inversesqrt (a : float) : float := ofZ 1 / fsqrt a.

(** Modelled from the spec: glm::normalize is not in the repository; GLM
    scales the vector by the inverse square root of its squared length. *)
Definition normalize (a : vec3) : vec3 := vscale a (inversesqrt (dot a a)).

(** Modelled from the spec: glm::lookAt is not in the repository; the
    look-at construction from eye position, target point and up vector. *)
Definition lookAt (eye center up : vec3) : mat4 :=
  let f := normalize (vsub center eye) in
  let s := normalize (cross f up) in
  let u := cross s f in
  MkMat4 (MkVec4 (vx s) (vx u) (- vx f) (ofZ 0))
         (MkVec4 (vy s) (vy u) (- vy f) (ofZ 0))
         (MkVec4 (vz s) (vz u) (- vz f) (ofZ 0))
         (MkVec4 (- dot s eye) (- dot u eye) (dot f eye) (ofZ 1)).

(** Modelled from the spec: glm::perspective is not in the repository; the
    symmetric perspective frustum of a vertical field of view given in
    radians, an aspect ratio and the two clip distances. *)
Definition perspective (fovy aspect zNear zFar : float) : mat4 :=
  let tanHalfFovy := ftan (fovy / ofZ 2) in
  let z := ofZ 0 in
  MkMat4 (MkVec4 (ofZ 1 / (aspect * tanHalfFovy)) z z z)
         (MkVec4 z (ofZ 1 / tanHalfFovy) z z)
         (MkVec4 z z ((- (zFar + zNear)) / (zFar - zNear)) (- ofZ 1))
         (MkVec4 z z ((- (ofZ 2 * zFar * zNear)) / (zFar - zNear)) z).

(** *** Camera specification and state *)

Record EditorCameraSpecs : Type := MkSpecs {
  Fov : float;
  NearClip : float;
  FarClip : float;
  AspectRatio : float
}.

(** The default member initialisers of [EditorCameraSpecs]. *)
Definition EditorCameraSpecs_default : EditorCameraSpecs :=
  MkSpecs (radians (ofZ 45)) (ofZ 1 / ofZ 10) (ofZ 100) (ofZ 16 / ofZ 9).

Record EditorCamera : Type := MkCamera {
  mCameraSpecs : EditorCameraSpecs;
  mPosition : vec3;
  mForwardDirection : vec3;
  mRightDirection : vec3;
  mUpDirection : vec3;
  mYaw : float;
  mPitch : float;
  mRoll : float;
  mMoveSpeed : float;
  mRotationSpeed : float;
  mLastMouseX : float;
  mLastMouseY : float;
  mView : mat4;
  mProjection : mat4
}.

(** Assignments to single members. *)
Definition set_mCameraSpecs (v : EditorCameraSpecs) (c : EditorCamera) :=
  MkCamera v (mPosition c) (mForwardDirection c) (mRightDirection c)
    (mUpDirection c) (mYaw c) (mPitch c) (mRoll c) (mMoveSpeed c)
    (mRotationSpeed c) (mLastMouseX c) (mLastMouseY c) (mView c)
    (mProjection c).

Definition set_mPosition (v : vec3) (c : EditorCamera) :=
  MkCamera (mCameraSpecs c) v (mForwardDirection c) (mRightDirection c)
    (mUpDirection c) (mYaw c) (mPitch c) (mRoll c) (mMoveSpeed c)
    (mRotationSpeed c) (mLastMouseX c) (mLastMouseY c) (mView c)
    (mProjection c).

Definition set_mForwardDirection (v : vec3) (c : EditorCamera) :=
  MkCamera (mCameraSpecs c) (mPosition c) v (mRightDirection c)
    (mUpDirection c) (mYaw c) (mPitch c) (mRoll c) (mMoveSpeed c)
    (mRotationSpeed c) (mLastMouseX c) (mLastMouseY c) (mView c)
    (mProjection c).

Definition set_mRightDirection (v : vec3) (c : EditorCamera) :=
  MkCamera (mCameraSpecs c) (mPosition c) (mForwardDirection c) v
    (mUpDirection c) (mYaw c) (mPitch c) (mRoll c) (mMoveSpeed c)
    (mRotationSpeed c) (mLastMouseX c) (mLastMouseY c) (mView c)
    (mProjection c).

Definition set_mUpDirection (v : vec3) (c : EditorCamera) :=
  MkCamera (mCameraSpecs c) (mPosition c) (mForwardDirection c)
    (mRightDirection c) v (mYaw c) (mPitch c) (mRoll c) (mMoveSpeed c)
    (mRotationSpeed c) (mLastMouseX c) (mLastMouseY c) (mView c)
    (mProjection c).

Definition set_mYaw (v : float) (c : EditorCamera) :=
  MkCamera (mCameraSpecs c) (mPosition c) (mForwardDirection c)
    (mRightDirection c) (mUpDirection c) v (mPitch c) (mRoll c)
    (mMoveSpeed c) (mRotationSpeed c) (mLastMouseX c) (mLastMouseY c)
    (mView c) (mProjection c).

Definition set_mPitch (v : float) (c : EditorCamera) :=
  MkCamera (mCameraSpecs c) (mPosition c) (mForwardDirection c)
    (mRightDirection c) (mUpDirection c) (mYaw c) v (mRoll c)
    (mMoveSpeed c) (mRotationSpeed c) (mLastMouseX c) (mLastMouseY c)
    (mView c) (mProjection c).

Definition set_mRoll (v : float) (c : EditorCamera) :=
  MkCamera (mCameraSpecs c) (mPosition c) (mForwardDirection c)
    (mRightDirection c) (mUpDirection c) (mYaw c) (mPitch c) v
    (mMoveSpeed c) (mRotationSpeed c) (mLastMouseX c) (mLastMouseY c)
    (mView c) (mProjection c).

Definition set_mMoveSpeed (v : float) (c : EditorCamera) :=
  MkCamera (mCameraSpecs c) (mPosition c) (mForwardDirection c)
    (mRightDirection c) (mUpDirection c) (mYaw c) (mPitch c) (mRoll c) v
    (mRotationSpeed c) (mLastMouseX c) (mLastMouseY c) (mView c)
    (mProjection c).

Definition set_mRotationSpeed (v : float) (c : EditorCamera) :=
  MkCamera (mCameraSpecs c) (mPosition c) (mForwardDirection c)
    (mRightDirection c) (mUpDirection c) (mYaw c) (mPitch c) (mRoll c)
    (mMoveSpeed c) v (mLastMouseX c) (mLastMouseY c) (mView c)
    (mProjection c).

Definition set_mLastMouseX (v : float) (c : EditorCamera) :=
  MkCamera (mCameraSpecs c) (mPosition c) (mForwardDirection c)
    (mRightDirection c) (mUpDirection c) (mYaw c) (mPitch c) (mRoll c)
    (mMoveSpeed c) (mRotationSpeed c) v (mLastMouseY c) (mView c)
    (mProjection c).

Definition set_mLastMouseY (v : float) (c : EditorCamera) :=
  MkCamera (mCameraSpecs c) (mPosition c) (mForwardDirection c)
    (mRightDirection c) (mUpDirection c) (mYaw c) (mPitch c) (mRoll c)
    (mMoveSpeed c) (mRotationSpeed c) (mLastMouseX c) v (mView c)
    (mProjection c).

Definition set_mView (v : mat4) (c : EditorCamera) :=
  MkCamera (mCameraSpecs c) (mPosition c) (mForwardDirection c)
    (mRightDirection c) (mUpDirection c) (mYaw c) (mPitch c) (mRoll c)
    (mMoveSpeed c) (mRotationSpeed c) (mLastMouseX c) (mLastMouseY c) v
    (mProjection c).

Definition set_mProjection (v : mat4) (c : EditorCamera) :=
  MkCamera (mCameraSpecs c) (mPosition c) (mForwardDirection c)
    (mRightDirection c) (mUpDirection c) (mYaw c) (mPitch c) (mRoll c)
    (mMoveSpeed c) (mRotationSpeed c) (mLastMouseX c) (mLastMouseY c)
    (mView c) v.

(** *** Private members *)

Definition NanoSecondsTicksInOneSecond : float := ofZ 1000000000.

Definition UpdateProjection (c : EditorCamera) : EditorCamera :=
  set_mProjection
    (perspective (radians (Fov (mCameraSpecs c)))
       (AspectRatio (mCameraSpecs c)) (NearClip (mCameraSpecs c))
       (FarClip (mCameraSpecs c)))
    c.

Definition UpdateView (c : EditorCamera) : EditorCamera :=
  let c :=
    set_mForwardDirection
      (normalize
         (MkVec3 (fcos (radians (mYaw c)) * fcos (radians (mPitch c)))
                 (fsin (radians (mPitch c)))
                 (fsin (radians (mYaw c)) * fcos (radians (mPitch c)))))
      c in
  let c :=
    set_mRightDirection
      (normalize
         (cross (mForwardDirection c) (MkVec3 (ofZ 0) (ofZ 1) (ofZ 0))))
      c in
  let c :=
    set_mUpDirection
      (normalize (cross (mRightDirection c) (mForwardDirection c))) c in
  set_mView
    (lookAt (mPosition c) (vadd (mPosition c) (mForwardDirection c))
       (mUpDirection c))
    c.

(** *** Public members *)

(** The default member initialisers of [EditorCamera]. *)
Definition EditorCamera_init : EditorCamera :=
  MkCamera EditorCameraSpecs_default
    (MkVec3 (ofZ 0) (ofZ 0) (ofZ 5))
    (MkVec3 (ofZ 0) (ofZ 0) (- ofZ 1))
    (MkVec3 (ofZ 1) (ofZ 0) (ofZ 0))
    (MkVec3 (ofZ 0) (ofZ 1) (ofZ 0))
    (- ofZ 90) (ofZ 0) (ofZ 0)
    (ofZ 5) (ofZ 1 / ofZ 10)
    (ofZ 0) (ofZ 0)
    (mat4_diag (ofZ 1)) (mat4_diag (ofZ 1)).

(** The constructor [EditorCamera()]. *)
Definition EditorCamera_new : EditorCamera :=
  UpdateView (UpdateProjection EditorCamera_init).

Definition SetCameraSpec (specs : EditorCameraSpecs) (c : EditorCamera)
  : EditorCamera :=
  let c := set_mCameraSpecs specs c in
  UpdateProjection c.

Definition SetPosition (position : vec3) (c : EditorCamera) : EditorCamera :=
  let c := set_mPosition position c in
  UpdateView c.

Definition SetOrientation (orientation : mat3) (c : EditorCamera)
  : EditorCamera :=
  let c := set_mForwardDirection (normalize (col2 orientation)) c in
  let c := set_mRightDirection (normalize (col0 orientation)) c in
  let c := set_mUpDirection (normalize (col1 orientation)) c in
  let c :=
    set_mYaw
      (degrees (fatan2 (vx (col2 orientation)) (vz (col2 orientation)))) c in
  let c := set_mPitch (degrees (fasin (- vy (col2 orientation)))) c in
  let c :=
    set_mRoll
      (degrees (fatan2 (vy (col0 orientation)) (vy (col1 orientation)))) c in
  UpdateView c.

(** [deltaTime] is the tick count of the [std::chrono::nanoseconds]. *)
Definition OnUpdate (deltaTime : Z) (movementFlags : CameraMovementFlags)
    (mousePos : vec2) (rotate : bool) (c : EditorCamera) : EditorCamera :=
  let dt := ofZ deltaTime / NanoSecondsTicksInOneSecond in
  let movement := vec3_splat (ofZ 0) in
  let speed := mMoveSpeed c * dt in
  let movement :=
    if HasFlag movementFlags Forward
    then vadd movement (vscale (mForwardDirection c) speed) else movement in
  let movement :=
    if HasFlag movementFlags Backward
    then vsub movement (vscale (mForwardDirection c) speed) else movement in
  let movement :=
    if HasFlag movementFlags Left
    then vsub movement (vscale (mRightDirection c) speed) else movement in
  let movement :=
    if HasFlag movementFlags Right
    then vadd movement (vscale (mRightDirection c) speed) else movement in
  let movement :=
    if HasFlag movementFlags Up
    then vadd movement (vscale (mUpDirection c) speed) else movement in
  let movement :=
    if HasFlag movementFlags Down
    then vsub movement (vscale (mUpDirection c) speed) else movement in
  let c := set_mPosition (vadd (mPosition c) movement) c in
  if rotate then
    let dx := x2 mousePos - mLastMouseX c in
    let dy := y2 mousePos - mLastMouseY c in
    let c := set_mYaw (mYaw c + dx * mRotationSpeed c) c in
    let c := set_mPitch (mPitch c - dy * mRotationSpeed c) c in
    let c := if mPitch c >? ofZ 89 then set_mPitch (ofZ 89) c else c in
    let c := if mPitch c <? - ofZ 89 then set_mPitch (- ofZ 89) c else c in
    let c := set_mLastMouseX (x2 mousePos) c in
    let c := set_mLastMouseY (y2 mousePos) c in
    UpdateView c
  else c.

(** The two parts of [OnUpdate], named so that statements can refer to
    them: the movement vector accumulated from the flags, and the
    assignments of the [if (rotate)] block before its call of
    [UpdateView].  [OnUpdate_split] shows that [OnUpdate] is their
    composition. *)
Definition OnUpdate_movement (deltaTime : Z)
    (movementFlags : CameraMovementFlags) (c : EditorCamera) : vec3 :=
  let dt := ofZ deltaTime / NanoSecondsTicksInOneSecond in
  let movement := vec3_splat (ofZ 0) in
  let speed := mMoveSpeed c * dt in
  let movement :=
    if HasFlag movementFlags Forward
    then vadd movement (vscale (mForwardDirection c) speed) else movement in
  let movement :=
    if HasFlag movementFlags Backward
    then vsub movement (vscale (mForwardDirection c) speed) else movement in
  let movement :=
    if HasFlag movementFlags Left
    then vsub movement (vscale (mRightDirection c) speed) else movement in
  let movement :=
    if HasFlag movementFlags Right
    then vadd movement (vscale (mRightDirection c) speed) else movement in
  let movement :=
    if HasFlag movementFlags Up
    then vadd movement (vscale (mUpDirection c) speed) else movement in
  let movement :=
    if HasFlag movementFlags Down
    then vsub movement (vscale (mUpDirection c) speed) else movement in
  movement.

Definition OnUpdate_rotation (mousePos : vec2) (c : EditorCamera)
  : EditorCamera :=
  let dx := x2 mousePos - mLastMouseX c in
  let dy := y2 mousePos - mLastMouseY c in
  let c := set_mYaw (mYaw c + dx * mRotationSpeed c) c in
  let c := set_mPitch (mPitch c - dy * mRotationSpeed c) c in
  let c := if mPitch c >? ofZ 89 then set_mPitch (ofZ 89) c else c in
  let c := if mPitch c <? - ofZ 89 then set_mPitch (- ofZ 89) c else c in
  let c := set_mLastMouseX (x2 mousePos) c in
  let c := set_mLastMouseY (y2 mousePos) c in
  c.

Definition GetViewMatrix (c : EditorCamera) : mat4 := mView c.
Definition GetProjectionMatrix (c : EditorCamera) : mat4 := mProjection c.

Definition SetLinearSpeed (speed : float) (c : EditorCamera) : EditorCamera :=
  set_mMoveSpeed speed c.

Definition SetRotationSpeed (speed : float) (c : EditorCamera)
  : EditorCamera :=
  set_mRotationSpeed speed c.

End Camera.

Arguments vec2 {S}.
Arguments vec3 {S}.
Arguments vec4 {S}.
Arguments mat3 {S}.
Arguments mat4 {S}.
Arguments EditorCameraSpecs {S}.
Arguments EditorCamera {S}.

(** ** The real-number implementation of the scalars *)

Definition Rltb (a b : R) : bool := if Rlt_dec a b then true else false.

(** The two-argument arctangent of <cmath> on the reals: the angle in
    (-pi, pi] of the point with abscissa [x] and ordinate [y], and 0 at the
    origin. *)
Definition Ratan2 (y x : R) : R :=
  (if Rlt_dec 0 x then atan (y / x)
   else if Rlt_dec x 0 then
     if Rle_dec 0 y then atan (y / x) + PI else atan (y / x) - PI
   else if Rlt_dec 0 y then PI / 2
   else if Rlt_dec y 0 then - (PI / 2)
   else 0)%R.

#[export] Instance RScalar : Scalar := {|
  float := R;
  ofZ := IZR;
  fadd := Rplus;
  fsub := Rminus;
  fmul := Rmult;
  fdiv := Rdiv;
  fneg := Ropp;
  fltb := Rltb;
  fsqrt := sqrt;
  fsin := sin;
  fcos := cos;
  ftan := tan;
  fasin := asin;
  fatan2 := Ratan2;
  deg2rad := (PI / 180)%R;
  rad2deg := (180 / PI)%R
|}.

(** ** The binary32 implementation of the scalars *)

(** The C++ [float] of the header is IEEE 754 binary32.  Its values are the
    [spec_float] of the standard library's specification of floating-point
    arithmetic, and its operations are that specification's: rounding to
    nearest, ties to even, at precision 24 and maximal exponent 128. *)

(** The value of a 32-bit pattern: sign bit, eight exponent bits, 23
    fraction bits. *)
Definition f32_of_bits (b : Z) : spec_float :=
  let s := Z.testbit b 31 in
  let e := Z.land (Z.shiftr b 23) 255 in
  let m := Z.land b (Z.ones 23) in
  if (e =? 255)%Z then (if (m =? 0)%Z then S754_infinity s else S754_nan)
  else if (e =? 0)%Z then
    match m with
    | Zpos p => S754_finite s p (-149)
    | _ => S754_zero s
    end
  else
    match (m + 2 ^ 23)%Z with
    | Zpos p => S754_finite s p (e - 150)
    | _ => S754_nan
    end.

(** [static_cast<float>] of an integer, and the literals with an integral
    value. *)
Definition f32_of_Z (z : Z) : spec_float := binary_normalize 24 128 z 0 false.

(** The <cmath> functions the header calls.  They belong to the platform's
    C library, not to the repository, and are left open. *)
Record Libm : Type := MkLibm {
  lm_sin : spec_float -> spec_float;
  lm_cos : spec_float -> spec_float;
  lm_tan : spec_float -> spec_float;
  lm_asin : spec_float -> spec_float;
  lm_atan2 : spec_float -> spec_float -> spec_float
}.

(** The scalars of the program: binary32 arithmetic over a C library.  The
    two literals of [glm::radians] and [glm::degrees],
    0.01745329251994329576923690768489 and
    57.295779513082320876798154814105, are given by the bit patterns of the
    binary32 values nearest to them. *)
Definition F32 (lm : Libm) : Scalar := {|
  float := spec_float;
  ofZ := f32_of_Z;
  fadd := SFadd 24 128;
  fsub := SFsub 24 128;
  fmul := SFmul 24 128;
  fdiv := SFdiv 24 128;
  fneg := SFopp;
  fltb := SFltb;
  fsqrt := SFsqrt 24 128;
  fsin := lm_sin lm;
  fcos := lm_cos lm;
  ftan := lm_tan lm;
  fasin := lm_asin lm;
  fatan2 := lm_atan2 lm;
  deg2rad := f32_of_bits 0x3C8EFA35%Z;
  rad2deg := f32_of_bits 0x42652EE1%Z
|}.

(** ** Notions the statements are written with *)

Section Notions.

Context {S : Scalar}.
Local Open Scope float_scope.

(** The view matrix agrees with the pose the camera holds. *)
Definition view_in_sync (c : EditorCamera) : Prop :=
  mView c =
  lookAt (mPosition c) (vadd (mPosition c) (mForwardDirection c))
    (mUpDirection c).

(** The basis vector a movement flag moves along. *)
Definition movement_axis (m : CameraMovement) (c : EditorCamera) : vec3 :=
  match m with
  | Forward | Backward => mForwardDirection c
  | Left | Right => mRightDirection c
  | Up | Down => mUpDirection c
  end.

Definition all_movements : list CameraMovement :=
  [Forward; Backward; Left; Right; Up; Down].

(** One step of the accumulation of the movement vector: a set flag adds
    (Forward, Right, Up) or subtracts (Backward, Left, Down) its axis
    scaled by [speed]. *)
Definition movement_step (fl : CameraMovementFlags) (c : EditorCamera)
    (speed : float) (acc : vec3) (m : CameraMovement) : vec3 :=
  if HasFlag fl m then
    match m with
    | Forward | Right | Up => vadd acc (vscale (movement_axis m c) speed)
    | Backward | Left | Down => vsub acc (vscale (movement_axis m c) speed)
    end
  else acc.

(** The movement vector in the words of the specification: accumulated
    from the zero vector over the flags, each active flag contributing its
    axis scaled by [linearSpeed * dt], where [dt] is the tick count
    converted to [float] and divided by 1e9. *)
Definition movement_accumulated (deltaTime : Z) (fl : CameraMovementFlags)
    (c : EditorCamera) : vec3 :=
  fold_left
    (movement_step fl c
       (mMoveSpeed c * (ofZ deltaTime / NanoSecondsTicksInOneSecond)))
    all_movements (vec3_splat (ofZ 0)).

(** The change of position between two camera states. *)
Definition displacement (c c' : EditorCamera) : vec3 :=
  vsub (mPosition c') (mPosition c).

(** The orientation with the x column (1,0,0), the y column (0,0,1) and
    the z column (0,-1,0): an orthonormal basis whose z axis points
    straight down. *)
Definition z_down_basis : mat3 :=
  MkMat3 (MkVec3 (ofZ 1) (ofZ 0) (ofZ 0))
         (MkVec3 (ofZ 0) (ofZ 0) (ofZ 1))
         (MkVec3 (ofZ 0) (- ofZ 1) (ofZ 0)).

(** The basis the view recomputation leaves: the forward vector is the
    normalised direction of the yaw and the pitch, the right vector the
    normalised cross product of the forward vector and the world up vector
    (0,1,0), the up vector the normalised cross product of the right and
    the forward vector. *)
Definition basis_from_angles (c : EditorCamera) : Prop :=
  mForwardDirection c =
    normalize
      (MkVec3 (fcos (radians (mYaw c)) * fcos (radians (mPitch c)))
              (fsin (radians (mPitch c)))
              (fsin (radians (mYaw c)) * fcos (radians (mPitch c)))) /\
  mRightDirection c =
    normalize (cross (mForwardDirection c) (MkVec3 (ofZ 0) (ofZ 1) (ofZ 0))) /\
  mUpDirection c =
    normalize (cross (mRightDirection c) (mForwardDirection c)).

(** One frame of input: tick count, flags and mouse position. *)
Record Frame : Type := MkFrame {
  frame_dt : Z;
  frame_flags : CameraMovementFlags;
  frame_mouse : vec2
}.

(** The camera after a sequence of frames, all with [rotate = true]. *)
Definition run_rotating (frames : list Frame) (c : EditorCamera)
  : EditorCamera :=
  fold_left
    (fun c fr => OnUpdate (frame_dt fr) (frame_flags fr) (frame_mouse fr)
                   true c)
    frames c.

End Notions.

Arguments Frame {S}.

Section RealNotions.

Local Open Scope R_scope.



(** The vector [UpdateView] normalises into the forward direction. *)
Definition euler_forward (yaw pitch : R) : @vec3 RScalar :=
  MkVec3 (cos (radians yaw) * cos (radians pitch))
         (sin (radians pitch))
         (sin (radians yaw) * cos (radians pitch)).



(** The basis a camera holds, as the orientation matrix [SetOrientation]
    reads: right, up and forward as the x, y and z columns. *)
Definition basis_of (c : @EditorCamera RScalar) : @mat3 RScalar :=
  MkMat3 (mRightDirection c) (mUpDirection c) (mForwardDirection c).

End RealNotions.

(** ** Proof tools for the real-number instance *)

Abbreviation V2 := (@MkVec2 RScalar).
Abbreviation V3 := (@MkVec3 RScalar).

(** Turns the operations of [RScalar] into those of [R]. *)
Ltac scalar_simpl :=
  cbn [float ofZ fadd fsub fmul fdiv fneg fltb fsqrt fsin fcos ftan fasin
       fatan2 deg2rad rad2deg RScalar] in *;
  change (@float RScalar) with R in *.

Ltac vec_simpl :=
  unfold vadd, vsub, vscale, vec3_splat, dot, cross;
  cbn [vx vy vz]; scalar_simpl.

(** ** Further notions *)

(** The flag word fits the [uint32_t] it is stored in. *)
Definition flags_in_range (fl : CameraMovementFlags) : Prop :=
  (0 <= mFlags fl < 2 ^ 32)%Z.

Section MoreNotions.

Context {S : Scalar}.
Local Open Scope float_scope.

(** The pitch the two tests of [OnUpdate] leave, for a pitch [p] before
    them. *)
Definition clamped_pitch (p : float) : float :=
  let p := if p >? ofZ 89 then ofZ 89 else p in
  if p <? - ofZ 89 then - ofZ 89 else p.

End MoreNotions.

(** ** Notions on binary32 *)

Section Binary32Notions.

Local Open Scope Z_scope.

(** A function given by its values at finitely many arguments, as pairs of
    bit patterns; NaN at every other argument. *)
Definition f32_table (tbl : list (Z * Z)) (x : spec_float) : spec_float :=
  match find (fun e => SFeqb (f32_of_bits (fst e)) x) tbl with
  | Some e => f32_of_bits (snd e)
  | None => S754_nan
  end.

(** The angles at which the constructed camera evaluates the sine and the
    cosine: [radians (-90)], which is -1.57079637, for its yaw, and
    [radians 0] for its pitch. *)
Definition yaw0_rad : spec_float := f32_of_bits 0xBFC90FDB.
Definition pitch0_rad : spec_float := f32_of_bits 0x00000000.

(** A C library returns the correctly rounded sine and cosine at the
    angles of the constructed camera: sin 0 = 0, cos 0 = 1,
    sin(-1.57079637) = -1 and cos(-1.57079637) = -4.37113883e-8. *)
Definition libm_rounds_default_angles (lm : Libm) : Prop :=
  lm_sin lm pitch0_rad = f32_of_bits 0x00000000 /\
  lm_cos lm pitch0_rad = f32_of_bits 0x3F800000 /\
  lm_sin lm yaw0_rad = f32_of_bits 0xBF800000 /\
  lm_cos lm yaw0_rad = f32_of_bits 0xB33BBD2E.

(** The angle at which a camera with a pitch of 90 degrees evaluates the
    sine and the cosine: [radians 90], which is 1.57079637. *)
Definition pole_rad : spec_float := f32_of_bits 0x3FC90FDB.

(** A C library returns the correctly rounded values where
    [SetOrientation] and [UpdateView] evaluate it for a z axis that points
    straight down: asin 1 = 1.57079637, atan2(0, 0) = 0,
    sin(1.57079637) = 1, cos(1.57079637) = -4.37113883e-8, sin 0 = 0 and
    cos 0 = 1. *)
Definition libm_rounds_pole_angles (lm : Libm) : Prop :=
  lm_asin lm (f32_of_Z 1) = pole_rad /\
  lm_atan2 lm (S754_zero false) (S754_zero false) = S754_zero false /\
  lm_sin lm pole_rad = f32_of_bits 0x3F800000 /\
  lm_cos lm pole_rad = f32_of_bits 0xB33BBD2E /\
  lm_sin lm pitch0_rad = f32_of_bits 0x00000000 /\
  lm_cos lm pitch0_rad = f32_of_bits 0x3F800000.

(** The C library the examples are evaluated with: the correctly rounded
    values at the arguments the examples reach (the sine and cosine of
    [radians 0], [radians (-90)] and [radians 90], the tangent of half the
    constructed camera's field of view, the arcsine of 1, the arctangent
    of 0 over 0), and NaN elsewhere, in particular for a NaN argument. *)
Definition libm_points : Libm := {|
  lm_sin :=
    f32_table [(0x00000000, 0x00000000); (0xBFC90FDB, 0xBF800000);
               (0x3FC90FDB, 0x3F800000)];
  lm_cos :=
    f32_table [(0x00000000, 0x3F800000); (0xBFC90FDB, 0xB33BBD2E);
               (0x3FC90FDB, 0xB33BBD2E)];
  lm_tan := f32_table [(0x3BE0969D, 0x3BE09783)];
  lm_asin := f32_table [(0x3F800000, 0x3FC90FDB)];
  lm_atan2 := fun y x =>
    match y, x with
    | S754_zero false, S754_zero false => S754_zero false
    | _, _ => S754_nan
    end
|}.

(** The pitch lies in [-89, 89], by the comparisons of binary32: false for
    NaN. *)
Definition pitch_in_range32 (p : spec_float) : bool :=
  SFleb (SFopp (f32_of_Z 89)) p && SFleb p (f32_of_Z 89).

(** The two pitch tests of [OnUpdate], one after the other, on binary32. *)
Definition clamp_pitch32 (p : spec_float) : spec_float :=
  if SFltb (f32_of_Z 89) p then f32_of_Z 89
  else if SFltb p (SFopp (f32_of_Z 89)) then SFopp (f32_of_Z 89)
  else p.

(** A zero or a finite nonzero number: neither an infinity nor NaN. *)
Definition is_finite32 (x : spec_float) : bool :=
  match x with
  | S754_zero _ | S754_finite _ _ _ => true
  | S754_infinity _ | S754_nan => false
  end.

(** The same number, up to the sign of a zero that [x + 0] loses: [y] is
    [x], or [x] is the negative and [y] the positive zero. *)
Definition same_but_zero_sign (x y : spec_float) : Prop :=
  y = x \/ (x = S754_zero true /\ y = S754_zero false).

End Binary32Notions.

(** Turns the C library calls of [F32 lm] into the fields of [lm]. *)
Ltac libm_simpl lm :=
  change (@fcos (F32 lm)) with (lm_cos lm) in *;
  change (@fsin (F32 lm)) with (lm_sin lm) in *;
  change (@fasin (F32 lm)) with (lm_asin lm) in *;
  change (@fatan2 (F32 lm)) with (lm_atan2 lm) in *.

(** * Properties *)

(** ** Flags *)

Lemma HasFlag_Flags_of (m m' : CameraMovement) :
  HasFlag (Flags_of m) m' = CameraMovement_eqb m m'.
Proof. destruct m, m'; reflexivity. Qed.

Lemma HasFlag_SetFlag (m m' : CameraMovement) (fl : CameraMovementFlags) :
  HasFlag (SetFlag m fl) m' = CameraMovement_eqb m m' || HasFlag fl m'.
Proof.
  unfold HasFlag, SetFlag; cbn [mFlags].
  rewrite Z.land_lor_distr_l.
  destruct (CameraMovement_eqb m m') eqn:E.
  - assert (m = m') by (destruct m, m'; discriminate || reflexivity).
    subst m'. rewrite Z.land_diag. cbn [orb].
    destruct (Z.eqb_spec (Z.lor (Z.land (mFlags fl) (movement_bits m))
                            (movement_bits m)) 0) as [H0|]; [|reflexivity].
    apply Z.lor_eq_0_iff in H0. destruct H0 as [_ H0].
    destruct m; discriminate H0.
  - assert (Z.land (movement_bits m) (movement_bits m') = 0%Z) as ->
      by (destruct m, m'; discriminate || reflexivity).
    rewrite Z.lor_0_r. reflexivity.
Qed.

Lemma movement_bits_testbit (m : CameraMovement) (n : Z) :
  Z.testbit (movement_bits m) n = true -> (0 <= n < 32)%Z.
Proof.
  intros H.
  assert (0 <= n)%Z as Hn.
  { destruct (Z.neg_nonneg_cases n) as [Hneg|]; [|assumption].
    rewrite (Z.testbit_neg_r _ _ Hneg) in H. discriminate. }
  split; [exact Hn|].
  destruct m; cbn [movement_bits] in H;
    rewrite Z.shiftl_1_l, Z.pow2_bits_eqb in H by lia;
    apply Z.eqb_eq in H; lia.
Qed.

(** A cleared flag is not set, and clearing it leaves the others alone. *)
Lemma HasFlag_ClearFlag (m m' : CameraMovement) (fl : CameraMovementFlags) :
  HasFlag (ClearFlag m fl) m' =
  if CameraMovement_eqb m m' then false else HasFlag fl m'.
Proof.
  unfold HasFlag, ClearFlag, not32; cbn [mFlags].
  destruct (CameraMovement_eqb m m') eqn:E.
  - assert (m = m') by (destruct m, m'; discriminate || reflexivity).
    subst m'.
    assert (Z.land (Z.land (mFlags fl)
                      (Z.lxor (movement_bits m) (Z.ones 32)))
              (movement_bits m) = 0%Z) as ->; [|reflexivity].
    apply Z.bits_inj'. intros n Hn.
    rewrite !Z.land_spec, Z.lxor_spec, Z.bits_0.
    destruct (Z.testbit (movement_bits m) n) eqn:Hb;
      [|apply andb_false_r].
    apply movement_bits_testbit in Hb.
    rewrite Z.ones_spec_low by lia. cbn [xorb].
    rewrite andb_false_r. reflexivity.
  - f_equal. f_equal.
    apply Z.bits_inj'. intros n Hn.
    rewrite !Z.land_spec, Z.lxor_spec.
    destruct (Z.testbit (movement_bits m') n) eqn:Hb';
      [|rewrite !andb_false_r; reflexivity].
    pose proof (movement_bits_testbit _ _ Hb') as Hlt.
    rewrite Z.ones_spec_low by lia.
    assert (Z.testbit (movement_bits m) n = false) as ->.
    { destruct m, m'; try discriminate E;
        cbn [movement_bits] in *;
        rewrite Z.shiftl_1_l, Z.pow2_bits_eqb in * by lia;
        apply Z.eqb_eq in Hb'; apply Z.eqb_neq; lia. }
    cbn. rewrite !andb_true_r. reflexivity.
Qed.

Lemma HasFlag_empty (m : CameraMovement) : HasFlag Flags_empty m = false.
Proof. destruct m; reflexivity. Qed.

Lemma HasFlag_ClearAll (fl : CameraMovementFlags) (m : CameraMovement) :
  HasFlag (ClearAll fl) m = false.
Proof. destruct m; reflexivity. Qed.

(** ** Data flow, for every implementation of the scalars *)

Section DataFlow.

Context {S : Scalar}.
Local Open Scope float_scope.

Lemma UpdateView_mPosition (c : EditorCamera) :
  mPosition (UpdateView c) = mPosition c.
Proof. reflexivity. Qed.

Lemma UpdateView_mPitch (c : EditorCamera) :
  mPitch (UpdateView c) = mPitch c.
Proof. reflexivity. Qed.

Lemma OnUpdate_split (deltaTime : Z) (fl : CameraMovementFlags)
    (mousePos : vec2) (rotate : bool) (c : EditorCamera) :
  OnUpdate deltaTime fl mousePos rotate c =
  let c1 :=
    set_mPosition (vadd (mPosition c) (OnUpdate_movement deltaTime fl c)) c in
  if rotate then UpdateView (OnUpdate_rotation mousePos c1) else c1.
Proof. reflexivity. Qed.

Lemma OnUpdate_rotation_frame (mousePos : vec2) (c : EditorCamera) :
  mPosition (OnUpdate_rotation mousePos c) = mPosition c /\
  mLastMouseX (OnUpdate_rotation mousePos c) = x2 mousePos /\
  mLastMouseY (OnUpdate_rotation mousePos c) = y2 mousePos /\
  mRotationSpeed (OnUpdate_rotation mousePos c) = mRotationSpeed c.
Proof.
  unfold OnUpdate_rotation. cbv zeta.
  repeat match goal with
         | |- context [if ?b then _ else _] => destruct b
         end; repeat split.
Qed.

Lemma OnUpdate_mPosition (deltaTime : Z) (fl : CameraMovementFlags)
    (mousePos : vec2) (rotate : bool) (c : EditorCamera) :
  mPosition (OnUpdate deltaTime fl mousePos rotate c) =
  vadd (mPosition c) (OnUpdate_movement deltaTime fl c).
Proof.
  rewrite OnUpdate_split. cbv zeta. destruct rotate; [|reflexivity].
  rewrite UpdateView_mPosition.
  rewrite (proj1 (OnUpdate_rotation_frame mousePos _)). reflexivity.
Qed.

(** The view recomputation leaves the camera with a view matrix that agrees
    with its pose. *)
Lemma UpdateView_in_sync (c : EditorCamera) : view_in_sync (UpdateView c).
Proof. reflexivity. Qed.

(** The view recomputation reads the yaw, the pitch and the position only:
    the roll and the basis held before do not reach its result. *)
Lemma UpdateView_ignores_roll_and_basis (c : EditorCamera)
    (roll : float) (f r u : vec3) :
  let d :=
    set_mRoll roll
      (set_mUpDirection u
         (set_mRightDirection r (set_mForwardDirection f c))) in
  mForwardDirection (UpdateView d) = mForwardDirection (UpdateView c) /\
  mRightDirection (UpdateView d) = mRightDirection (UpdateView c) /\
  mUpDirection (UpdateView d) = mUpDirection (UpdateView c) /\
  mView (UpdateView d) = mView (UpdateView c).
Proof. repeat split. Qed.

(** C1, as amended: with [rotate = false] the view matrix is not recomputed.
    For a camera whose view matrix agreed with its pose before the call, the
    view matrix after the call is still the look-at matrix of the position
    held BEFORE the call (not of the new position), with the forward and up
    vectors, which the call leaves untouched. *)
Theorem OnUpdate_no_rotate_view_is_stale
    (deltaTime : Z) (fl : CameraMovementFlags) (mousePos : vec2)
    (c : EditorCamera) :
  view_in_sync c ->
  let c' := OnUpdate deltaTime fl mousePos false c in
  mView c' =
    lookAt (mPosition c) (vadd (mPosition c) (mForwardDirection c'))
      (mUpDirection c') /\
  mForwardDirection c' = mForwardDirection c /\
  mUpDirection c' = mUpDirection c.
Proof.
  intros Hsync c'. repeat split. exact Hsync.
Qed.

(** C7: [SetCameraSpec] stores the specification and recomputes the
    projection matrix; the view matrix, the position, yaw, pitch and roll,
    the three basis vectors, both speeds and the last mouse coordinates are
    the ones held before. *)
Theorem SetCameraSpec_frame (specs : EditorCameraSpecs) (c : EditorCamera) :
  let c' := SetCameraSpec specs c in
  mCameraSpecs c' = specs /\
  mView c' = mView c /\
  mPosition c' = mPosition c /\
  mYaw c' = mYaw c /\ mPitch c' = mPitch c /\ mRoll c' = mRoll c /\
  mForwardDirection c' = mForwardDirection c /\
  mRightDirection c' = mRightDirection c /\
  mUpDirection c' = mUpDirection c /\
  mMoveSpeed c' = mMoveSpeed c /\
  mRotationSpeed c' = mRotationSpeed c /\
  mLastMouseX c' = mLastMouseX c /\
  mLastMouseY c' = mLastMouseY c /\
  c' = set_mProjection (mProjection c') (set_mCameraSpecs specs c).
Proof. repeat split. Qed.

(** C8: a call of [OnUpdate] with [rotate = false] leaves the last mouse
    coordinates, yaw, pitch, roll, the forward, right and up vectors and the
    view matrix exactly as they were; the camera after the call is the
    camera before it with a new position and nothing else changed. *)
Theorem OnUpdate_no_rotate_frame
    (deltaTime : Z) (fl : CameraMovementFlags) (mousePos : vec2)
    (c : EditorCamera) :
  let c' := OnUpdate deltaTime fl mousePos false c in
  mLastMouseX c' = mLastMouseX c /\
  mLastMouseY c' = mLastMouseY c /\
  mYaw c' = mYaw c /\ mPitch c' = mPitch c /\ mRoll c' = mRoll c /\
  mForwardDirection c' = mForwardDirection c /\
  mRightDirection c' = mRightDirection c /\
  mUpDirection c' = mUpDirection c /\
  mView c' = mView c /\
  c' = set_mPosition (mPosition c') c.
Proof. repeat split. Qed.

(** *** The two branches of [OnUpdate] *)

(** The [if (rotate)] block as four assignments. *)
Lemma OnUpdate_rotation_eq (mousePos : vec2) (c : EditorCamera) :
  OnUpdate_rotation mousePos c =
  set_mLastMouseY (y2 mousePos)
    (set_mLastMouseX (x2 mousePos)
       (set_mPitch
          (clamped_pitch
             (mPitch c - (y2 mousePos - mLastMouseY c) * mRotationSpeed c))
          (set_mYaw
             (mYaw c + (x2 mousePos - mLastMouseX c) * mRotationSpeed c)
             c))).
Proof.
  unfold OnUpdate_rotation, clamped_pitch. cbv zeta.
  cbn [mPitch mYaw mLastMouseX mLastMouseY mRotationSpeed set_mYaw
       set_mPitch].
  set (p := mPitch c - (y2 mousePos - mLastMouseY c) * mRotationSpeed c).
  destruct (fltb (ofZ 89) p); cbn [mPitch set_mPitch];
    match goal with
    | |- context [fltb ?a (- ofZ 89)] => destruct (fltb a (- ofZ 89))
    end; reflexivity.
Qed.

Lemma OnUpdate_rotate_eq (deltaTime : Z) (fl : CameraMovementFlags)
    (mousePos : vec2) (c : EditorCamera) :
  OnUpdate deltaTime fl mousePos true c =
  UpdateView
    (set_mLastMouseY (y2 mousePos)
       (set_mLastMouseX (x2 mousePos)
          (set_mPitch
             (clamped_pitch
                (mPitch c - (y2 mousePos - mLastMouseY c) * mRotationSpeed c))
             (set_mYaw
                (mYaw c + (x2 mousePos - mLastMouseX c) * mRotationSpeed c)
                (set_mPosition
                   (vadd (mPosition c) (OnUpdate_movement deltaTime fl c))
                   c))))).
Proof.
  rewrite OnUpdate_split. cbv zeta. rewrite OnUpdate_rotation_eq.
  reflexivity.
Qed.

Lemma OnUpdate_no_rotate_eq (deltaTime : Z) (fl : CameraMovementFlags)
    (mousePos : vec2) (c : EditorCamera) :
  OnUpdate deltaTime fl mousePos false c =
  set_mPosition (vadd (mPosition c) (OnUpdate_movement deltaTime fl c)) c.
Proof. reflexivity. Qed.

(** *** The movement vector *)

Lemma OnUpdate_movement_accumulated (dt : Z) (fl : CameraMovementFlags)
    (c : EditorCamera) :
  OnUpdate_movement dt fl c = movement_accumulated dt fl c.
Proof.
  unfold OnUpdate_movement, movement_accumulated, all_movements,
    movement_step.
  cbv zeta. cbn [fold_left movement_axis].
  destruct (HasFlag fl Forward), (HasFlag fl Backward), (HasFlag fl Left),
    (HasFlag fl Right), (HasFlag fl Up), (HasFlag fl Down); reflexivity.
Qed.

Lemma OnUpdate_movement_no_flag (dt : Z) (fl : CameraMovementFlags)
    (c : EditorCamera) :
  (forall m, HasFlag fl m = false) ->
  OnUpdate_movement dt fl c = vec3_splat (ofZ 0).
Proof.
  intros H. unfold OnUpdate_movement. cbv zeta. rewrite !H. reflexivity.
Qed.

Lemma OnUpdate_movement_forward (dt : Z) (c : EditorCamera) :
  OnUpdate_movement dt (Flags_of Forward) c =
  vadd (vec3_splat (ofZ 0))
    (vscale (mForwardDirection c)
       (mMoveSpeed c * (ofZ dt / NanoSecondsTicksInOneSecond))).
Proof. reflexivity. Qed.

Lemma OnUpdate_movement_right (dt : Z) (c : EditorCamera) :
  OnUpdate_movement dt (Flags_of Right) c =
  vadd (vec3_splat (ofZ 0))
    (vscale (mRightDirection c)
       (mMoveSpeed c * (ofZ dt / NanoSecondsTicksInOneSecond))).
Proof. reflexivity. Qed.

Lemma OnUpdate_movement_forward_right (dt : Z) (c : EditorCamera) :
  OnUpdate_movement dt (SetFlag Right (Flags_of Forward)) c =
  vadd
    (vadd (vec3_splat (ofZ 0))
       (vscale (mForwardDirection c)
          (mMoveSpeed c * (ofZ dt / NanoSecondsTicksInOneSecond))))
    (vscale (mRightDirection c)
       (mMoveSpeed c * (ofZ dt / NanoSecondsTicksInOneSecond))).
Proof. reflexivity. Qed.

(** *** Sequences of rotating frames *)

Lemma run_rotating_concat (fs gs : list Frame) (c : EditorCamera) :
  run_rotating (fs ++ gs) c = run_rotating gs (run_rotating fs c).
Proof. unfold run_rotating. apply fold_left_app. Qed.

Lemma run_rotating_cons (fr : Frame) (fs : list Frame) (c : EditorCamera) :
  run_rotating (fr :: fs) c =
  run_rotating fs
    (OnUpdate (frame_dt fr) (frame_flags fr) (frame_mouse fr) true c).
Proof.
  unfold run_rotating. change (fr :: fs) with ([fr] ++ fs).
  rewrite fold_left_app. reflexivity.
Qed.

Lemma run_rotating_snoc (fs : list Frame) (fr : Frame) (c : EditorCamera) :
  run_rotating (fs ++ [fr]) c =
  OnUpdate (frame_dt fr) (frame_flags fr) (frame_mouse fr) true
    (run_rotating fs c).
Proof. unfold run_rotating. rewrite fold_left_app. reflexivity. Qed.

(** *** The basis after the view recomputation *)

Lemma UpdateView_basis (c : EditorCamera) : basis_from_angles (UpdateView c).
Proof. repeat split. Qed.

Lemma EditorCamera_new_basis : basis_from_angles EditorCamera_new.
Proof. apply UpdateView_basis. Qed.

Lemma SetOrientation_basis (o : mat3) (c : EditorCamera) :
  basis_from_angles (SetOrientation o c).
Proof. apply UpdateView_basis. Qed.

Lemma SetOrientation_yaw_pitch (o : mat3) (c : EditorCamera) :
  mYaw (SetOrientation o c) =
    degrees (fatan2 (vx (col2 o)) (vz (col2 o))) /\
  mPitch (SetOrientation o c) = degrees (fasin (- vy (col2 o))).
Proof. split; reflexivity. Qed.

End DataFlow.

(** ** The real-number instance *)

Local Open Scope R_scope.

Lemma vec3_eq (a b c a' b' c' : R) :
  a = a' -> b = b' -> c = c' -> V3 a b c = V3 a' b' c'.
Proof. intros; subst; reflexivity. Qed.

Lemma radians_R (x : R) : radians (S:=RScalar) x = x * PI / 180.
Proof. unfold radians; scalar_simpl; field. Qed.

Lemma degrees_R (x : R) : degrees (S:=RScalar) x = x * 180 / PI.
Proof. unfold degrees; scalar_simpl; field. apply PI_neq0. Qed.

(** *** Normalisation and the look-at direction *)

Lemma normalize_of_unit (a : vec3) : dot a a = 1 -> normalize a = a.
Proof.
  intros H. unfold normalize, inversesqrt. rewrite H. scalar_simpl.
  rewrite sqrt_1. destruct a as [x y z]. vec_simpl.
  apply vec3_eq; field.
Qed.

Lemma normalize_of_unit_eq (a b : vec3) :
  a = b -> dot b b = 1 -> normalize a = b.
Proof. intros -> H. apply normalize_of_unit, H. Qed.

(** The direction [lookAt] derives from eye and eye + forward is the
    forward vector. *)
Lemma lookAt_direction (p f : vec3) :
  dot f f = 1 -> normalize (vsub (vadd p f) p) = f.
Proof.
  intros Hf. apply normalize_of_unit_eq; [|exact Hf].
  destruct p, f. vec_simpl. apply vec3_eq; ring.
Qed.

Lemma lookAt_mcol3_wz (eye center up : vec3) :
  wz (mcol3 (lookAt eye center up)) = dot (normalize (vsub center eye)) eye.
Proof. reflexivity. Qed.

(** *** Angles *)

Lemma radians_0 : radians (S:=RScalar) 0 = 0.
Proof. rewrite radians_R. scalar_simpl. field. Qed.

Lemma radians_m90 : radians (S:=RScalar) (-90) = - (PI / 2).
Proof. rewrite radians_R. scalar_simpl. field. Qed.

Lemma radians_180 : radians (S:=RScalar) 180 = PI.
Proof. rewrite radians_R. scalar_simpl. field. Qed.

Lemma Ratan2_0_neg (x : R) : x < 0 -> Ratan2 0 x = PI.
Proof.
  intros Hx. unfold Ratan2.
  destruct (Rlt_dec 0 x); [lra|].
  destruct (Rlt_dec x 0); [|lra].
  destruct (Rle_dec 0 0); [|lra].
  replace (0 / x) with 0 by (field; lra). rewrite atan_0. ring.
Qed.

(** *** The view recomputation *)

Lemma euler_forward_unit (yaw pitch : R) :
  dot (euler_forward yaw pitch) (euler_forward yaw pitch) = 1.
Proof.
  unfold euler_forward; vec_simpl.
  pose proof (sin2_cos2 (radians yaw)) as Hy.
  pose proof (sin2_cos2 (radians pitch)) as Hp.
  unfold Rsqr in *. scalar_simpl. nra.
Qed.

Lemma euler_forward_m90_0 : euler_forward (-90) 0 = V3 0 0 (-1).
Proof.
  unfold euler_forward. rewrite radians_m90, radians_0.
  rewrite cos_neg, sin_neg, cos_PI2, sin_PI2, cos_0, sin_0.
  scalar_simpl. apply vec3_eq; ring.
Qed.

Lemma euler_forward_180_0 : euler_forward 180 0 = V3 (-1) 0 0.
Proof.
  unfold euler_forward. rewrite radians_180, radians_0.
  rewrite cos_PI, sin_PI, cos_0, sin_0.
  scalar_simpl. apply vec3_eq; ring.
Qed.

Lemma UpdateView_forward (c : EditorCamera) :
  mForwardDirection (UpdateView c) = euler_forward (mYaw c) (mPitch c).
Proof.
  change (mForwardDirection (UpdateView c))
    with (normalize (euler_forward (mYaw c) (mPitch c))).
  apply normalize_of_unit, euler_forward_unit.
Qed.

(** *** The constructed camera *)

Lemma EditorCamera_new_yaw_pitch :
  mYaw (S:=RScalar) EditorCamera_new = -90 /\
  mPitch (S:=RScalar) EditorCamera_new = 0.
Proof. split; cbn; lra. Qed.

Lemma EditorCamera_new_position :
  mPosition (S:=RScalar) EditorCamera_new = V3 0 0 5.
Proof. reflexivity. Qed.

Lemma EditorCamera_new_speed : mMoveSpeed (S:=RScalar) EditorCamera_new = 5.
Proof. reflexivity. Qed.

Lemma EditorCamera_new_forward :
  mForwardDirection (S:=RScalar) EditorCamera_new = V3 0 0 (-1).
Proof.
  unfold EditorCamera_new. rewrite UpdateView_forward.
  change (euler_forward (- 90) 0 = V3 0 0 (-1)).
  replace (- 90) with (-90) by lra. apply euler_forward_m90_0.
Qed.

(** One second of forward movement takes the constructed camera to the
    origin. *)
Lemma EditorCamera_new_forward_1s (mousePos : vec2) (rotate : bool) :
  mPosition
    (OnUpdate 1000000000 (Flags_of Forward) mousePos rotate EditorCamera_new)
  = V3 0 0 0.
Proof.
  rewrite OnUpdate_mPosition, EditorCamera_new_position.
  unfold OnUpdate_movement. cbv zeta.
  rewrite !HasFlag_Flags_of. cbn [CameraMovement_eqb].
  rewrite EditorCamera_new_forward, EditorCamera_new_speed.
  unfold NanoSecondsTicksInOneSecond.
  vec_simpl. apply vec3_eq; field.
Qed.

(** *** [SetOrientation] *)

Lemma SetOrientation_mPitch (o : mat3) (c : EditorCamera) :
  mPitch (SetOrientation o c) = degrees (asin (- vy (col2 o))).
Proof. reflexivity. Qed.

Lemma SetOrientation_mYaw (o : mat3) (c : EditorCamera) :
  mYaw (SetOrientation o c) = degrees (Ratan2 (vx (col2 o)) (vz (col2 o))).
Proof. reflexivity. Qed.

Lemma SetOrientation_forward (o : mat3) (c : EditorCamera) :
  mForwardDirection (SetOrientation o c) =
  euler_forward (mYaw (SetOrientation o c)) (mPitch (SetOrientation o c)).
Proof.
  unfold SetOrientation. cbv zeta. rewrite UpdateView_forward. reflexivity.
Qed.



(** *** The pitch clamp *)





(** *** The field of view *)

Lemma tan_half_fov_lt :
  0 < tan (radians (S:=RScalar) (radians (S:=RScalar) 45) / 2) <
  tan (radians (S:=RScalar) 45 / 2).
Proof.
  rewrite !radians_R. scalar_simpl.
  pose proof PI_4 as H4. pose proof PI_RGT_0 as H0.
  assert (0 < 45 * PI / 180 * PI / 180 / 2) as Ha by nra.
  assert (45 * PI / 180 * PI / 180 / 2 < 45 * PI / 180 / 2) as Hab by nra.
  assert (45 * PI / 180 / 2 < PI / 2) as Hb by lra.
  split.
  - apply tan_gt_0; lra.
  - apply tan_increasing; lra.
Qed.

(** ** The claims settled in the real-number instance *)

(** C1, as stated, fails: the constructed camera is moved forward for one
    second with [rotate = false]; its position changes from (0,0,5) to the
    origin, and the view matrix it then holds is not the look-at matrix of
    the new position with the forward and up vectors held before the
    call. *)
Lemma OnUpdate_no_rotate_view_lags :
  let c := EditorCamera_new (S:=RScalar) in
  let c' := OnUpdate 1000000000 (Flags_of Forward) (V2 0 0) false c in
  mPosition c' <> mPosition c /\
  mView c' <>
    lookAt (mPosition c') (vadd (mPosition c') (mForwardDirection c))
      (mUpDirection c).
Proof.
  intros c c'.
  assert (mPosition c' = V3 0 0 0) as Hpos
    by apply EditorCamera_new_forward_1s.
  assert (mView c' =
          lookAt (mPosition c) (vadd (mPosition c) (mForwardDirection c))
            (mUpDirection c)) as Hview by reflexivity.
  pose proof EditorCamera_new_position as Hp.
  pose proof EditorCamera_new_forward as Hf.
  fold c in Hp, Hf.
  rewrite Hpos, Hview, Hp, Hf. split.
  - intros E. apply (f_equal (@vz RScalar)) in E. cbn [vz] in E.
    scalar_simpl. lra.
  - intros E. apply (f_equal (fun M => wz (mcol3 M))) in E.
    rewrite !lookAt_mcol3_wz in E.
    rewrite !lookAt_direction in E by (vec_simpl; ring).
    revert E. vec_simpl. lra.
Qed.

(** The amended C1 at the constructed camera, moved forward for one
    second. *)
Lemma OnUpdate_no_rotate_view_is_stale_witness :
  let c := EditorCamera_new (S:=RScalar) in
  let c' := OnUpdate 1000000000 (Flags_of Forward) (V2 0 0) false c in
  view_in_sync c /\
  mView c' =
    lookAt (mPosition c) (vadd (mPosition c) (mForwardDirection c'))
      (mUpDirection c') /\
  mForwardDirection c' = mForwardDirection c /\
  mUpDirection c' = mUpDirection c.
Proof.
  intros c c'. split.
  - reflexivity.
  - apply (@OnUpdate_no_rotate_view_is_stale RScalar 1000000000
             (Flags_of Forward) (V2 0 0) c).
    reflexivity.
Defined.

(** C2: [SetCameraSpec] builds the projection from [radians (Fov specs)],
    not from the supplied field of view: the field of view, which the
    default specification gives in radians (pi/4), is converted from degrees
    to radians once more.  For the default specification the projection
    matrix is therefore not the perspective matrix of the supplied field of
    view, aspect ratio and clip distances. *)
Theorem SetCameraSpec_converts_fov_twice :
  (forall (specs : EditorCameraSpecs) (c : EditorCamera),
     mProjection (SetCameraSpec specs c) =
     perspective (radians (Fov specs)) (AspectRatio specs) (NearClip specs)
       (FarClip specs)) /\
  Fov (S:=RScalar) EditorCameraSpecs_default = PI / 4 /\
  (forall c : EditorCamera,
     let specs := EditorCameraSpecs_default in
     mProjection (SetCameraSpec specs c) <>
     perspective (Fov specs) (AspectRatio specs) (NearClip specs)
       (FarClip specs)).
Proof.
  split; [reflexivity|split].
  - unfold EditorCameraSpecs_default; cbn [Fov]. rewrite radians_R.
    scalar_simpl. field.
  - intros c specs Heq.
    apply (f_equal (fun M => wy (mcol1 M))) in Heq.
    unfold SetCameraSpec, UpdateProjection, perspective, specs,
      EditorCameraSpecs_default in Heq.
    cbv zeta in Heq.
    cbn [mProjection set_mProjection set_mCameraSpecs mCameraSpecs Fov
         mcol1 wy] in Heq.
    destruct tan_half_fov_lt as [Hpos Hlt].
    scalar_simpl.
    set (a := tan _) in *. set (b := tan _) in Hlt, Heq.
    assert (1 / b < 1 / a) as Hinv.
    { unfold Rdiv. rewrite !Rmult_1_l. apply Rinv_lt_contravar; nra. }
    lra.
Qed.

(** C9: the constructed camera holds yaw -90, pitch 0 and the forward
    vector (0,0,-1) the view recomputation derives from them.  Given that
    camera's own basis, [SetOrientation] stores yaw 180 instead of -90 and
    the camera then looks along (-1,0,0): the yaw is not recovered.  The
    roll, and the basis held before, do not reach the view
    recomputation. *)
Theorem SetOrientation_own_basis_turns_camera :
  (let c := EditorCamera_new (S:=RScalar) in
   let c' := SetOrientation (basis_of c) c in
   (mYaw c = -90 /\ mPitch c = 0 /\ mForwardDirection c = V3 0 0 (-1)) /\
   (mYaw c' = 180 /\ mPitch c' = 0 /\ mForwardDirection c' = V3 (-1) 0 0) /\
   mYaw c' <> mYaw c /\
   mForwardDirection c' <> mForwardDirection c) /\
  (forall (c : EditorCamera) (roll : R),
     mForwardDirection (UpdateView (set_mRoll roll c)) =
       mForwardDirection (UpdateView c) /\
     mRightDirection (UpdateView (set_mRoll roll c)) =
       mRightDirection (UpdateView c) /\
     mUpDirection (UpdateView (set_mRoll roll c)) =
       mUpDirection (UpdateView c) /\
     mView (UpdateView (set_mRoll roll c)) = mView (UpdateView c)).
Proof.
  split; [|repeat split].
  intros c c'.
  assert (mYaw c' = 180) as Hyaw.
  { unfold c'. rewrite SetOrientation_mYaw. unfold basis_of; cbn [col2].
    unfold c. rewrite EditorCamera_new_forward; cbn [vx vz].
    rewrite Ratan2_0_neg by lra. rewrite degrees_R. scalar_simpl.
    field. apply PI_neq0. }
  assert (mPitch c' = 0) as Hpitch.
  { unfold c'. rewrite SetOrientation_mPitch. unfold basis_of; cbn [col2].
    unfold c. rewrite EditorCamera_new_forward; cbn [vy].
    scalar_simpl. rewrite Ropp_0, asin_0, degrees_R. scalar_simpl.
    field. apply PI_neq0. }
  assert (mForwardDirection c' = V3 (-1) 0 0) as Hfwd.
  { unfold c'. rewrite SetOrientation_forward. fold c'.
    rewrite Hyaw, Hpitch. apply euler_forward_180_0. }
  destruct EditorCamera_new_yaw_pitch as [Hy0 Hp0].
  pose proof EditorCamera_new_forward as Hf0.
  fold c in Hy0, Hp0, Hf0.
  repeat split; try assumption.
  - rewrite Hyaw, Hy0. scalar_simpl. lra.
  - rewrite Hfwd, Hf0. intros Heq.
    apply (f_equal (@vx RScalar)) in Heq. cbn [vx] in Heq.
    scalar_simpl. lra.
Qed.


(** ** The binary32 instance *)

(** *** Comparison and addition on binary32 *)

Lemma SFcompare_antisym (x y : spec_float) :
  SFcompare y x = option_map CompOpp (SFcompare x y).
Proof.
  destruct x as [sx|sx| |sx mx ex], y as [sy|sy| |sy my ey];
    try destruct sx; try destruct sy; cbn; try reflexivity;
    rewrite (Z.compare_antisym ex ey);
    destruct (Z.compare ex ey); cbn; try reflexivity;
    rewrite ?(Pos.compare_cont_antisym mx my Eq); reflexivity.
Qed.

Lemma SFcompare_nan_iff (x y : spec_float) :
  SFcompare x y = None <-> x = S754_nan \/ y = S754_nan.
Proof.
  destruct x as [sx|sx| |sx mx ex], y as [sy|sy| |sy my ey]; cbn;
    split; intros H; try discriminate; auto;
    destruct H as [H|H]; discriminate.
Qed.

(** Where [x < y] is false and neither is NaN, [y <= x]. *)
Lemma SFleb_of_not_ltb (x y : spec_float) :
  SFltb x y = false -> x <> S754_nan -> y <> S754_nan -> SFleb y x = true.
Proof.
  unfold SFltb, SFleb. rewrite (SFcompare_antisym x y).
  intros H Hx Hy.
  destruct (SFcompare x y) as [[]|] eqn:E; cbn; try reflexivity;
    try discriminate.
  apply SFcompare_nan_iff in E. tauto.
Qed.

Lemma SFltb_of_leb (x y : spec_float) :
  SFleb x y = true -> SFltb y x = false.
Proof.
  unfold SFltb, SFleb. rewrite (SFcompare_antisym x y).
  destruct (SFcompare x y) as [[]|]; cbn; congruence.
Qed.

(** [0 + y] is [y], except that the sum of the two zeros is the positive
    one. *)
Lemma SFadd_zero_l (y : spec_float) :
  same_but_zero_sign y (SFadd 24 128 (S754_zero false) y).
Proof.
  destruct y as [[]| | |]; cbn; unfold same_but_zero_sign; auto.
Qed.

Lemma SFadd_zero_r (x : spec_float) :
  same_but_zero_sign x (SFadd 24 128 x (S754_zero false)).
Proof.
  destruct x as [[]|[]| |]; cbn; unfold same_but_zero_sign; auto.
Qed.

(** Adding [0 + b] to [0 + a] is adding [b]: [0 + a] is never the negative
    zero. *)
Lemma SFadd_zero_l_absorbed (a b : spec_float) :
  SFadd 24 128 (SFadd 24 128 (S754_zero false) a)
    (SFadd 24 128 (S754_zero false) b) =
  SFadd 24 128 (SFadd 24 128 (S754_zero false) a) b.
Proof.
  destruct (SFadd_zero_l b) as [Hb|[Hb Hb']].
  - rewrite Hb. reflexivity.
  - rewrite Hb'. subst b.
    destruct a as [[]|[]| |]; reflexivity.
Qed.

(** [(0 + x) - x] is the positive zero for every finite [x]. *)
Lemma SFsub_add_zero_self (x : spec_float) :
  is_finite32 x = true ->
  SFsub 24 128 (SFadd 24 128 (S754_zero false) x) x = S754_zero false.
Proof.
  destruct x as [[]|s| |s m e]; try discriminate; intros _;
    try reflexivity.
  cbn [SFadd]. unfold SFsub. cbv zeta.
  rewrite Z.min_id. unfold shl_align. rewrite Z.sub_diag.
  cbn [fst]. reflexivity.
Qed.

(** *** The pitch tests on binary32 *)

Lemma f32_of_Z_89 : f32_of_Z 89 = S754_finite false 11665408 (-17).
Proof. reflexivity. Qed.

Lemma clamped_pitch_32 (lm : Libm) (p : spec_float) :
  clamped_pitch (S:=F32 lm) p = clamp_pitch32 p.
Proof.
  unfold clamped_pitch, clamp_pitch32. cbn [fltb fneg ofZ F32].
  destruct (SFltb (f32_of_Z 89) p); reflexivity.
Qed.

Lemma clamp_pitch32_high (p : spec_float) :
  SFltb (f32_of_Z 89) p = true -> clamp_pitch32 p = f32_of_Z 89.
Proof. intros H. unfold clamp_pitch32. rewrite H. reflexivity. Qed.

Lemma clamp_pitch32_low (p : spec_float) :
  SFltb p (SFopp (f32_of_Z 89)) = true ->
  clamp_pitch32 p = SFopp (f32_of_Z 89).
Proof.
  intros H. unfold clamp_pitch32. rewrite H.
  rewrite f32_of_Z_89 in *.
  destruct p as [[]|[]| |[] m e]; try discriminate H; reflexivity.
Qed.

Lemma clamp_pitch32_mid (p : spec_float) :
  pitch_in_range32 p = true -> clamp_pitch32 p = p.
Proof.
  unfold pitch_in_range32. intros H. apply andb_prop in H as [Hlo Hhi].
  unfold clamp_pitch32.
  rewrite (SFltb_of_leb _ _ Hhi), (SFltb_of_leb _ _ Hlo). reflexivity.
Qed.

(** The value the tests leave is 89 above 89, -89 below -89, and the pitch
    itself otherwise; the three cases and NaN exhaust binary32. *)
Lemma clamp_pitch32_cases (p : spec_float) :
  (SFltb (f32_of_Z 89) p = true /\ clamp_pitch32 p = f32_of_Z 89) \/
  (SFltb p (SFopp (f32_of_Z 89)) = true /\
   clamp_pitch32 p = SFopp (f32_of_Z 89)) \/
  (pitch_in_range32 p = true /\ clamp_pitch32 p = p) \/
  (p = S754_nan /\ clamp_pitch32 p = S754_nan).
Proof.
  unfold clamp_pitch32.
  destruct (SFltb (f32_of_Z 89) p) eqn:Hhi; [left; auto|].
  destruct (SFltb p (SFopp (f32_of_Z 89))) eqn:Hlo; [right; left; auto|].
  right; right.
  destruct p as [s|s| |s m e] eqn:Ep; [left|left|right; auto|left];
    (split; [|reflexivity]); unfold pitch_in_range32;
    rewrite <- Ep in *;
    (rewrite (SFleb_of_not_ltb Hlo), (SFleb_of_not_ltb Hhi);
     [reflexivity|..]); subst p; discriminate.
Qed.

Lemma clamp_pitch32_range (p : spec_float) :
  pitch_in_range32 (clamp_pitch32 p) = true \/ clamp_pitch32 p = S754_nan.
Proof.
  destruct (clamp_pitch32_cases p) as [[_ H]|[[_ H]|[[Hr H]|[_ H]]]];
    rewrite H; auto.
Qed.

Lemma OnUpdate_rotate_mPitch32 (lm : Libm) (dt : Z)
    (fl : CameraMovementFlags) (m : @vec2 (F32 lm))
    (c : @EditorCamera (F32 lm)) :
  mPitch (OnUpdate dt fl m true c) =
  clamp_pitch32
    (SFsub 24 128 (mPitch c)
       (SFmul 24 128 (SFsub 24 128 (y2 m) (mLastMouseY c))
          (mRotationSpeed c))).
Proof.
  rewrite OnUpdate_rotate_eq, UpdateView_mPitch.
  cbn [mPitch set_mLastMouseY set_mLastMouseX set_mPitch].
  rewrite clamped_pitch_32. reflexivity.
Qed.

Lemma OnUpdate_rotate_mouse_speed32 (lm : Libm) (dt : Z)
    (fl : CameraMovementFlags) (m : @vec2 (F32 lm))
    (c : @EditorCamera (F32 lm)) :
  mLastMouseY (OnUpdate dt fl m true c) = y2 m /\
  mRotationSpeed (OnUpdate dt fl m true c) = mRotationSpeed c.
Proof. rewrite OnUpdate_rotate_eq. split; reflexivity. Qed.

Lemma OnUpdate_rotate_nan_pitch (lm : Libm) (dt : Z)
    (fl : CameraMovementFlags) (m : @vec2 (F32 lm))
    (c : @EditorCamera (F32 lm)) :
  mPitch c = S754_nan -> mPitch (OnUpdate dt fl m true c) = S754_nan.
Proof.
  intros H. rewrite OnUpdate_rotate_mPitch32, H. reflexivity.
Qed.

Lemma run_rotating_nan_pitch (lm : Libm) (frames : list (@Frame (F32 lm)))
    (c : @EditorCamera (F32 lm)) :
  mPitch c = S754_nan -> mPitch (run_rotating frames c) = S754_nan.
Proof.
  revert c. induction frames as [|fr frames IH]; intros c H.
  - exact H.
  - rewrite run_rotating_cons. apply IH.
    apply OnUpdate_rotate_nan_pitch, H.
Qed.

Lemma run_rotating_pitch32 (lm : Libm) (frames : list (@Frame (F32 lm)))
    (c : @EditorCamera (F32 lm)) :
  pitch_in_range32 (mPitch c) = true \/ mPitch c = S754_nan ->
  pitch_in_range32 (mPitch (run_rotating frames c)) = true \/
  mPitch (run_rotating frames c) = S754_nan.
Proof.
  intros Hc. induction frames as [|fr frames IH] using rev_ind.
  - exact Hc.
  - rewrite run_rotating_snoc, OnUpdate_rotate_mPitch32.
    apply clamp_pitch32_range.
Qed.

(** With a rotation speed of 0, a mouse that moves to y = 3 * 2^126 and
    then to y = -3 * 2^126 makes the pitch NaN, whatever the C library is:
    the second mouse delta overflows to minus infinity, and its product
    with 0 is NaN. *)
Lemma pitch_nan_reachable (lm : Libm) :
  let c0 := SetRotationSpeed (S:=F32 lm) (f32_of_Z 0) EditorCamera_new in
  let frames :=
    [@MkFrame (F32 lm) 0 Flags_empty
       (@MkVec2 (F32 lm) (f32_of_Z 0) (f32_of_Z (3 * 2 ^ 126)));
     @MkFrame (F32 lm) 0 Flags_empty
       (@MkVec2 (F32 lm) (f32_of_Z 0) (f32_of_Z (- 3 * 2 ^ 126)))] in
  pitch_in_range32 (mPitch c0) = true /\
  mPitch (run_rotating frames c0) = S754_nan.
Proof.
  intros c0 frames. split; [reflexivity|].
  unfold frames. rewrite !run_rotating_cons.
  cbn [frame_dt frame_flags frame_mouse run_rotating fold_left].
  rewrite OnUpdate_rotate_mPitch32.
  match goal with
  | |- context [OnUpdate ?dt ?fl ?m true c0] =>
      destruct (OnUpdate_rotate_mouse_speed32 dt fl m c0) as [Hm Hs];
      rewrite Hm, Hs, OnUpdate_rotate_mPitch32
  end.
  reflexivity.
Qed.

(** *** The constructed camera on binary32 *)

Lemma libm_points_rounds_default_angles :
  libm_rounds_default_angles libm_points.
Proof. repeat split. Qed.

Lemma EditorCamera_new_forward32 (lm : Libm) :
  libm_rounds_default_angles lm ->
  mForwardDirection (S:=F32 lm) EditorCamera_new =
  @MkVec3 (F32 lm) (f32_of_bits 0xB33BBD2E) (f32_of_Z 0) (f32_of_Z (-1)).
Proof.
  intros (Hs0 & Hc0 & Hsy & Hcy).
  rewrite (proj1 (EditorCamera_new_basis (S:=F32 lm))).
  change (mYaw (S:=F32 lm) EditorCamera_new) with (SFopp (f32_of_Z 90)).
  change (mPitch (S:=F32 lm) EditorCamera_new) with (f32_of_Z 0).
  change (radians (S:=F32 lm) (SFopp (f32_of_Z 90))) with yaw0_rad.
  change (radians (S:=F32 lm) (f32_of_Z 0)) with pitch0_rad.
  libm_simpl lm. rewrite Hs0, Hc0, Hsy, Hcy. reflexivity.
Qed.

Lemma EditorCamera_new_right32 (lm : Libm) :
  libm_rounds_default_angles lm ->
  mRightDirection (S:=F32 lm) EditorCamera_new =
  @MkVec3 (F32 lm) (f32_of_Z 1) (f32_of_Z 0) (f32_of_bits 0xB33BBD2E).
Proof.
  intros Hlm.
  rewrite (proj1 (proj2 (EditorCamera_new_basis (S:=F32 lm)))).
  rewrite (EditorCamera_new_forward32 Hlm). reflexivity.
Qed.

(** One second of forward movement takes the constructed camera to
    (-2.18556949e-7, 0, 0). *)
Lemma EditorCamera_new_forward_1s_32 (lm : Libm)
    (mousePos : @vec2 (F32 lm)) (rotate : bool) :
  libm_rounds_default_angles lm ->
  mPosition
    (OnUpdate 1000000000 (Flags_of Forward) mousePos rotate EditorCamera_new)
  = @MkVec3 (F32 lm) (f32_of_bits 0xB46AAC7A) (f32_of_Z 0) (f32_of_Z 0).
Proof.
  intros Hlm.
  rewrite OnUpdate_mPosition, OnUpdate_movement_forward.
  rewrite (EditorCamera_new_forward32 Hlm). reflexivity.
Qed.

(** The positions of the constructed camera after 0.6 seconds with the
    Forward flag, with the Right flag, and with both. *)
Lemma EditorCamera_new_forward_right_32 (lm : Libm)
    (mousePos : @vec2 (F32 lm)) (rotate : bool) :
  libm_rounds_default_angles lm ->
  let c := EditorCamera_new (S:=F32 lm) in
  mPosition c = @MkVec3 (F32 lm) (f32_of_Z 0) (f32_of_Z 0) (f32_of_Z 5) /\
  mPosition (OnUpdate 600000000 (Flags_of Forward) mousePos rotate c) =
    @MkVec3 (F32 lm) (f32_of_bits 0xB40CCDE2) (f32_of_Z 0) (f32_of_Z 2) /\
  mPosition (OnUpdate 600000000 (Flags_of Right) mousePos rotate c) =
    @MkVec3 (F32 lm) (f32_of_Z 3) (f32_of_Z 0) (f32_of_Z 5) /\
  mPosition
    (OnUpdate 600000000 (SetFlag Right (Flags_of Forward)) mousePos rotate c)
  = @MkVec3 (F32 lm) (f32_of_bits 0x403FFFFF) (f32_of_Z 0)
      (f32_of_bits 0x3FFFFFFE).
Proof.
  intros Hlm c. unfold c.
  rewrite !OnUpdate_mPosition, OnUpdate_movement_forward,
    OnUpdate_movement_right, OnUpdate_movement_forward_right.
  rewrite (EditorCamera_new_forward32 Hlm), (EditorCamera_new_right32 Hlm).
  repeat split.
Qed.

(** ** The claims settled on binary32 *)

(** C4, as stated, fails: the constructed camera, whose pitch is 0, is
    given a rotation speed of 0; the mouse moves to y = 3 * 2^126 and then
    to y = -3 * 2^126.  The second mouse delta overflows to minus infinity,
    its product with the rotation speed is NaN, and so is the pitch: both
    pitch tests are false for NaN, and the pitch does not lie in
    [-89, 89]. *)
Lemma pitch_clamp_passes_nan :
  let c0 :=
    SetRotationSpeed (S:=F32 libm_points) (f32_of_Z 0) EditorCamera_new in
  let frames :=
    [@MkFrame (F32 libm_points) 0 Flags_empty
       (@MkVec2 (F32 libm_points) (f32_of_Z 0) (f32_of_Z (3 * 2 ^ 126)));
     @MkFrame (F32 libm_points) 0 Flags_empty
       (@MkVec2 (F32 libm_points) (f32_of_Z 0)
          (f32_of_Z (- 3 * 2 ^ 126)))] in
  pitch_in_range32 (mPitch c0) = true /\
  mPitch (run_rotating frames c0) = S754_nan /\
  pitch_in_range32 (mPitch (run_rotating frames c0)) = false.
Proof.
  intros c0 frames.
  destruct (pitch_nan_reachable libm_points) as [H0 Hnan].
  fold c0 frames in H0, Hnan.
  split; [exact H0|split; [exact Hnan|]].
  rewrite Hnan. reflexivity.
Qed.

(** C4, as amended.  From a camera whose pitch lies in [-89, 89], the
    pitch after every sequence of [OnUpdate] calls with [rotate = true]
    lies in [-89, 89] or is NaN.  A frame whose unclamped pitch is above 89
    leaves exactly 89, one below -89 exactly -89, one in [-89, 89] the
    unclamped pitch, and one that is NaN leaves NaN; the next frame starts
    from the value left: its pitch is the clamped value of that value
    minus its own mouse delta times the rotation speed, so no excess is
    carried over.  Once the pitch is NaN it stays NaN. *)
Theorem pitch_clamp_binary32 (lm : Libm) (c : @EditorCamera (F32 lm)) :
  pitch_in_range32 (mPitch c) = true ->
  (forall frames : list (@Frame (F32 lm)),
     pitch_in_range32 (mPitch (run_rotating frames c)) = true \/
     mPitch (run_rotating frames c) = S754_nan) /\
  (forall (frames : list (@Frame (F32 lm))) (deltaTime : Z)
          (fl : CameraMovementFlags) (mousePos : @vec2 (F32 lm)),
     let c1 := run_rotating frames c in
     let target :=
       SFsub 24 128 (mPitch c1)
         (SFmul 24 128 (SFsub 24 128 (y2 mousePos) (mLastMouseY c1))
            (mRotationSpeed c1)) in
     let c2 := OnUpdate deltaTime fl mousePos true c1 in
     (SFltb (f32_of_Z 89) target = true -> mPitch c2 = f32_of_Z 89) /\
     (SFltb target (SFopp (f32_of_Z 89)) = true ->
      mPitch c2 = SFopp (f32_of_Z 89)) /\
     (pitch_in_range32 target = true -> mPitch c2 = target) /\
     (target = S754_nan -> mPitch c2 = S754_nan) /\
     (forall (deltaTime' : Z) (fl' : CameraMovementFlags)
             (mousePos' : @vec2 (F32 lm)),
        mPitch (OnUpdate deltaTime' fl' mousePos' true c2) =
        clamp_pitch32
          (SFsub 24 128 (mPitch c2)
             (SFmul 24 128 (SFsub 24 128 (y2 mousePos') (y2 mousePos))
                (mRotationSpeed c1))))) /\
  (forall frames frames' : list (@Frame (F32 lm)),
     mPitch (run_rotating frames c) = S754_nan ->
     mPitch (run_rotating (frames ++ frames') c) = S754_nan).
Proof.
  intros Hc. split; [|split].
  - intros frames. apply run_rotating_pitch32. left. exact Hc.
  - intros frames dt fl m c1 target c2.
    assert (mPitch c2 = clamp_pitch32 target) as Hp
      by apply OnUpdate_rotate_mPitch32.
    split; [|split; [|split; [|split]]].
    + intros H. rewrite Hp. apply clamp_pitch32_high, H.
    + intros H. rewrite Hp. apply clamp_pitch32_low, H.
    + intros H. rewrite Hp. apply clamp_pitch32_mid, H.
    + intros H. rewrite Hp, H. reflexivity.
    + intros dt' fl' m'. rewrite OnUpdate_rotate_mPitch32.
      destruct (OnUpdate_rotate_mouse_speed32 dt fl m c1) as [Hm Hs].
      fold c2 in Hm, Hs. rewrite Hm, Hs. reflexivity.
  - intros frames frames' H. rewrite run_rotating_concat.
    apply run_rotating_nan_pitch, H.
Qed.

(** The amended C4 at the constructed camera: the mouse is dragged far up,
    then far down. *)
Lemma pitch_clamp_binary32_witness :
  let c := EditorCamera_new (S:=F32 libm_points) in
  let frames :=
    [@MkFrame (F32 libm_points) 16000000 Flags_empty
       (@MkVec2 (F32 libm_points) (f32_of_Z 0) (f32_of_Z (-100000)));
     @MkFrame (F32 libm_points) 16000000 Flags_empty
       (@MkVec2 (F32 libm_points) (f32_of_Z 0) (f32_of_Z 100000))] in
  pitch_in_range32 (mPitch c) = true /\
  (pitch_in_range32 (mPitch (run_rotating frames c)) = true \/
   mPitch (run_rotating frames c) = S754_nan).
Proof.
  intros c frames. split.
  - reflexivity.
  - apply (proj1 (@pitch_clamp_binary32 libm_points c eq_refl)).
Defined.

(** C5, as stated, fails at its own example: the constructed camera's
    forward vector is (-4.37113883e-8, 0, -1), because the cosine of the
    binary32 nearest to -pi/2 is not zero, and after one second with the
    Forward flag and [rotate = false] the camera is at
    (-2.18556949e-7, 0, 0), whose x coordinate does not compare equal to
    0. *)
Lemma OnUpdate_forward_1s_misses_origin :
  let c := EditorCamera_new (S:=F32 libm_points) in
  let c' :=
    OnUpdate 1000000000 (Flags_of Forward)
      (@MkVec2 (F32 libm_points) (f32_of_Z 0) (f32_of_Z 0)) false c in
  mForwardDirection c =
    @MkVec3 (F32 libm_points) (f32_of_bits 0xB33BBD2E) (f32_of_Z 0)
      (f32_of_Z (-1)) /\
  mPosition c' =
    @MkVec3 (F32 libm_points) (f32_of_bits 0xB46AAC7A) (f32_of_Z 0)
      (f32_of_Z 0) /\
  SFeqb (vx (mPosition c')) (f32_of_Z 0) = false /\
  mPosition c' <>
    @MkVec3 (F32 libm_points) (f32_of_Z 0) (f32_of_Z 0) (f32_of_Z 0).
Proof.
  intros c c'.
  pose proof (EditorCamera_new_forward32 libm_points_rounds_default_angles)
    as Hf.
  pose proof (EditorCamera_new_forward_1s_32
                (@MkVec2 (F32 libm_points) (f32_of_Z 0) (f32_of_Z 0)) false
                libm_points_rounds_default_angles) as Hp.
  fold c in Hf. fold c c' in Hp.
  split; [exact Hf|split; [exact Hp|]].
  rewrite Hp. split; [reflexivity|discriminate].
Qed.

(** C5, as amended.  For every scalar implementation, [deltaTime], flag
    set and camera state, [OnUpdate] translates the position by the
    movement vector accumulated from zero, in the order Forward, Backward,
    Left, Right, Up, Down, from the forward, right or up vector of each
    active flag scaled by the linear speed times the seconds elapsed,
    added for Forward, Right and Up and subtracted for Backward, Left and
    Down.  On binary32, with a C library that rounds the sine and cosine
    of the constructed camera's angles correctly, the constructed camera
    has linear speed 5, position (0,0,5) and forward vector
    (-4.37113883e-8, 0, -1), and after one second with the Forward flag
    it is at (-2.18556949e-7, 0, 0), wherever the mouse is and whether or
    not it rotates. *)
Theorem OnUpdate_translates_by_accumulated_movement (lm : Libm) :
  libm_rounds_default_angles lm ->
  (forall (S : Scalar) (deltaTime : Z) (fl : CameraMovementFlags)
          (mousePos : @vec2 S) (rotate : bool) (c : @EditorCamera S),
     mPosition (OnUpdate deltaTime fl mousePos rotate c) =
     vadd (mPosition c) (movement_accumulated deltaTime fl c)) /\
  mMoveSpeed (S:=F32 lm) EditorCamera_new = f32_of_Z 5 /\
  mPosition (S:=F32 lm) EditorCamera_new =
    @MkVec3 (F32 lm) (f32_of_Z 0) (f32_of_Z 0) (f32_of_Z 5) /\
  mForwardDirection (S:=F32 lm) EditorCamera_new =
    @MkVec3 (F32 lm) (f32_of_bits 0xB33BBD2E) (f32_of_Z 0) (f32_of_Z (-1)) /\
  (forall (mousePos : @vec2 (F32 lm)) (rotate : bool),
     mPosition
       (OnUpdate 1000000000 (Flags_of Forward) mousePos rotate
          EditorCamera_new) =
     @MkVec3 (F32 lm) (f32_of_bits 0xB46AAC7A) (f32_of_Z 0) (f32_of_Z 0)).
Proof.
  intros Hlm. split; [|split; [|split; [|split]]].
  - intros. rewrite OnUpdate_mPosition, OnUpdate_movement_accumulated.
    reflexivity.
  - reflexivity.
  - reflexivity.
  - apply EditorCamera_new_forward32, Hlm.
  - intros m r. apply EditorCamera_new_forward_1s_32, Hlm.
Qed.

(** The amended C5 with the C library of the examples, the mouse at (3,4)
    and [rotate = true]. *)
Lemma OnUpdate_translates_by_accumulated_movement_witness :
  libm_rounds_default_angles libm_points /\
  mPosition
    (OnUpdate 1000000000 (Flags_of Forward)
       (@MkVec2 (F32 libm_points) (f32_of_Z 3) (f32_of_Z 4)) true
       EditorCamera_new) =
  @MkVec3 (F32 libm_points) (f32_of_bits 0xB46AAC7A) (f32_of_Z 0)
    (f32_of_Z 0).
Proof.
  assert (libm_rounds_default_angles libm_points) as H
    by (repeat split).
  split.
  - exact H.
  - apply (proj2 (proj2 (proj2 (proj2
             (@OnUpdate_translates_by_accumulated_movement libm_points H))))).
Defined.

(** C6, as stated, fails when the displacement is the difference of the
    positions after and before the call: for the constructed camera and
    0.6 seconds, the displacement with Forward and Right both set has the
    z coordinate -3.00000024, and the sum of the two single-flag
    displacements the z coordinate -3. *)
Lemma OnUpdate_displacements_not_additive :
  let c := EditorCamera_new (S:=F32 libm_points) in
  let m := @MkVec2 (F32 libm_points) (f32_of_Z 0) (f32_of_Z 0) in
  let dFR :=
    displacement c
      (OnUpdate 600000000 (SetFlag Right (Flags_of Forward)) m false c) in
  let dF := displacement c (OnUpdate 600000000 (Flags_of Forward) m false c) in
  let dR := displacement c (OnUpdate 600000000 (Flags_of Right) m false c) in
  vz dFR = f32_of_bits 0xC0400001 /\
  vz (vadd dF dR) = f32_of_bits 0xC0400000 /\
  SFeqb (vz dFR) (vz (vadd dF dR)) = false /\
  dFR <> vadd dF dR.
Proof.
  intros c m dFR dF dR.
  destruct (EditorCamera_new_forward_right_32 m false
              libm_points_rounds_default_angles) as (Hp & HF & HR & HFR).
  fold c in Hp, HF, HR, HFR.
  assert (vz dFR = f32_of_bits 0xC0400001) as H1.
  { unfold dFR, displacement. rewrite HFR, Hp. reflexivity. }
  assert (vz (vadd dF dR) = f32_of_bits 0xC0400000) as H2.
  { unfold dF, dR, displacement. rewrite HF, HR, Hp. reflexivity. }
  split; [exact H1|split; [exact H2|split]].
  - rewrite H1, H2. reflexivity.
  - intros E. rewrite E, H2 in H1. discriminate H1.
Qed.

(** C6, as amended.  On binary32, for every C library, camera state and
    [deltaTime], the movement vector that [OnUpdate] adds to the position
    with the flags Forward and Right both set is the vector sum of the
    movement vector it adds with Forward alone and the one it adds with
    Right alone. *)
Theorem OnUpdate_forward_right_movement_additive
    (lm : Libm) (deltaTime : Z) (c : @EditorCamera (F32 lm))
    (m1 m2 m3 : @vec2 (F32 lm)) (r1 r2 r3 : bool) :
  let both := SetFlag Right (Flags_of Forward) in
  let moveF := OnUpdate_movement deltaTime (Flags_of Forward) c in
  let moveR := OnUpdate_movement deltaTime (Flags_of Right) c in
  (HasFlag both Forward = true /\ HasFlag both Right = true) /\
  mPosition (OnUpdate deltaTime (Flags_of Forward) m2 r2 c) =
    vadd (mPosition c) moveF /\
  mPosition (OnUpdate deltaTime (Flags_of Right) m3 r3 c) =
    vadd (mPosition c) moveR /\
  mPosition (OnUpdate deltaTime both m1 r1 c) =
    vadd (mPosition c) (vadd moveF moveR).
Proof.
  intros both moveF moveR.
  split; [split; reflexivity|split; [|split]].
  - apply OnUpdate_mPosition.
  - apply OnUpdate_mPosition.
  - rewrite OnUpdate_mPosition. f_equal.
    unfold both, moveF, moveR.
    rewrite OnUpdate_movement_forward_right, OnUpdate_movement_forward,
      OnUpdate_movement_right.
    unfold vadd, vec3_splat. cbn [vx vy vz fadd ofZ F32].
    change (f32_of_Z 0) with (S754_zero false).
    rewrite !SFadd_zero_l_absorbed. reflexivity.
Qed.

(** * Further properties *)

Lemma movement_bits_range (m : CameraMovement) :
  (0 < movement_bits m < 64)%Z.
Proof. destruct m; cbv; split; reflexivity. Qed.

Lemma lt_pow2_32_log2 (x : Z) :
  (0 <= x -> (x < 2 ^ 32 <-> Z.log2 x < 32))%Z.
Proof.
  intros Hx. destruct (Z.eq_dec x 0) as [->|Hne].
  - cbn. split; intros; lia.
  - apply Z.log2_lt_pow2. lia.
Qed.

Lemma SetFlag_in_range (m : CameraMovement) (fl : CameraMovementFlags) :
  flags_in_range fl -> flags_in_range (SetFlag m fl).
Proof.
  unfold flags_in_range, SetFlag; cbn [mFlags]. intros [H0 H1].
  pose proof (movement_bits_range m) as [Hb0 Hb1].
  assert (0 <= Z.lor (mFlags fl) (movement_bits m))%Z as Hn
    by (apply Z.lor_nonneg; lia).
  split; [exact Hn|].
  apply lt_pow2_32_log2; [exact Hn|].
  rewrite Z.log2_lor by lia.
  apply lt_pow2_32_log2 in H1; [|lia].
  assert (Z.log2 (movement_bits m) < 32)%Z
    by (apply lt_pow2_32_log2; lia).
  lia.
Qed.

Lemma ClearFlag_in_range (m : CameraMovement) (fl : CameraMovementFlags) :
  flags_in_range fl -> flags_in_range (ClearFlag m fl).
Proof.
  unfold flags_in_range, ClearFlag, not32; cbn [mFlags]. intros [H0 H1].
  pose proof (movement_bits_range m) as [Hb0 Hb1].
  assert (0 <= Z.lxor (movement_bits m) (Z.ones 32))%Z as Hx.
  { apply Z.lxor_nonneg. rewrite Z.ones_equiv. cbn. lia. }
  assert (0 <= Z.land (mFlags fl) (Z.lxor (movement_bits m) (Z.ones 32)))%Z
    as Hn by (apply Z.land_nonneg; lia).
  split; [exact Hn|].
  apply lt_pow2_32_log2; [exact Hn|].
  pose proof (Z.log2_land (mFlags fl) _ H0 Hx) as Hl.
  apply lt_pow2_32_log2 in H1; [|lia]. lia.
Qed.

(** X3: a flag word that fits [uint32_t] still fits it after [SetFlag],
    [ClearFlag] and [ClearAll]; the bitwise operations on the unbounded
    integers of the embedding never leave the 32 bits of the C++ member. *)
Theorem flags_stay_in_range (fl : CameraMovementFlags) (m : CameraMovement) :
  flags_in_range fl ->
  flags_in_range (SetFlag m fl) /\
  flags_in_range (ClearFlag m fl) /\
  flags_in_range (ClearAll fl).
Proof.
  intros H. repeat split; try (apply SetFlag_in_range, H);
    try (apply ClearFlag_in_range, H); try (cbn; lia).
Qed.

Lemma flags_stay_in_range_witness :
  flags_in_range (Flags_of Up) /\
  flags_in_range (SetFlag Left (Flags_of Up)) /\
  flags_in_range (ClearFlag Left (Flags_of Up)) /\
  flags_in_range (ClearAll (Flags_of Up)).
Proof.
  assert (flags_in_range (Flags_of Up)) as H by (cbv; split; congruence).
  split; [exact H|].
  apply (flags_stay_in_range Left H).
Defined.

(** X1: the flag word behaves as a set of movements under [HasFlag]:
    [SetFlag m] adds [m] and keeps the others, [ClearFlag m] removes [m] and
    keeps the others, [ClearAll] and the default constructor hold no
    movement, and the converting constructor holds exactly its
    movement. *)
Theorem flags_membership (fl : CameraMovementFlags) (m m' : CameraMovement) :
  HasFlag (SetFlag m fl) m' = CameraMovement_eqb m m' || HasFlag fl m' /\
  HasFlag (ClearFlag m fl) m' =
    negb (CameraMovement_eqb m m') && HasFlag fl m' /\
  HasFlag (ClearAll fl) m' = false /\
  HasFlag Flags_empty m' = false /\
  HasFlag (Flags_of m) m' = CameraMovement_eqb m m'.
Proof.
  split; [apply HasFlag_SetFlag|].
  split; [rewrite HasFlag_ClearFlag;
          destruct (CameraMovement_eqb m m'); reflexivity|].
  split; [apply HasFlag_ClearAll|].
  split; [apply HasFlag_empty|apply HasFlag_Flags_of].
Qed.

Lemma CameraMovement_eqb_eq (m m' : CameraMovement) :
  CameraMovement_eqb m m' = true <-> m = m'.
Proof. destruct m, m'; split; intros H; try reflexivity; discriminate H. Qed.

(** X2: as far as [HasFlag] can tell, setting and clearing are idempotent,
    two [SetFlag] commute, the later of a [SetFlag] and a [ClearFlag] of one
    movement wins, and operations on different movements commute. *)
Theorem flags_set_clear_algebra
    (fl : CameraMovementFlags) (a b x : CameraMovement) :
  HasFlag (SetFlag a (SetFlag a fl)) x = HasFlag (SetFlag a fl) x /\
  HasFlag (ClearFlag a (ClearFlag a fl)) x = HasFlag (ClearFlag a fl) x /\
  HasFlag (SetFlag a (SetFlag b fl)) x = HasFlag (SetFlag b (SetFlag a fl)) x /\
  HasFlag (ClearFlag a (SetFlag a fl)) x = HasFlag (ClearFlag a fl) x /\
  HasFlag (SetFlag a (ClearFlag a fl)) x = HasFlag (SetFlag a fl) x /\
  (a <> b ->
   HasFlag (ClearFlag a (SetFlag b fl)) x =
   HasFlag (SetFlag b (ClearFlag a fl)) x).
Proof.
  repeat (rewrite HasFlag_SetFlag || rewrite HasFlag_ClearFlag).
  split; [destruct (CameraMovement_eqb a x); reflexivity|].
  split; [destruct (CameraMovement_eqb a x); reflexivity|].
  split; [destruct (CameraMovement_eqb a x), (CameraMovement_eqb b x);
          reflexivity|].
  split; [destruct (CameraMovement_eqb a x); reflexivity|].
  split; [destruct (CameraMovement_eqb a x); reflexivity|].
  intros Hab.
    destruct (CameraMovement_eqb a x) eqn:Ea,
             (CameraMovement_eqb b x) eqn:Eb; try reflexivity.
    apply CameraMovement_eqb_eq in Ea, Eb. congruence.
Qed.

Lemma flags_set_clear_algebra_witness :
  Forward <> Right /\
  HasFlag (ClearFlag Forward (SetFlag Right Flags_empty)) Right =
  HasFlag (SetFlag Right (ClearFlag Forward Flags_empty)) Right.
Proof.
  assert (Forward <> Right) as H by discriminate.
  split; [exact H|].
  exact (proj2 (proj2 (proj2 (proj2 (proj2
           (flags_set_clear_algebra Flags_empty Forward Right Right)))))
           H).
Defined.

Section MoreDataFlow.

Context {S : Scalar}.
Local Open Scope float_scope.

(** X4: after the constructor, [SetPosition], [SetOrientation] and
    [OnUpdate] with [rotate = true] the view matrix is the look-at matrix of
    the stored position, forward and up vectors; a rotating update after a
    non-rotating one picks up the position both have accumulated. *)
Theorem view_in_sync_after_recompute :
  view_in_sync EditorCamera_new /\
  (forall (position : vec3) (c : EditorCamera),
     view_in_sync (SetPosition position c)) /\
  (forall (o : mat3) (c : EditorCamera), view_in_sync (SetOrientation o c)) /\
  (forall (deltaTime : Z) (fl : CameraMovementFlags) (mousePos : vec2)
          (c : EditorCamera),
     view_in_sync (OnUpdate deltaTime fl mousePos true c)) /\
  (forall (deltaTime deltaTime' : Z) (fl fl' : CameraMovementFlags)
          (mousePos mousePos' : vec2) (c : EditorCamera),
     let c1 := OnUpdate deltaTime fl mousePos false c in
     let c2 := OnUpdate deltaTime' fl' mousePos' true c1 in
     view_in_sync c2 /\
     mPosition c2 =
       vadd (vadd (mPosition c) (OnUpdate_movement deltaTime fl c))
            (OnUpdate_movement deltaTime' fl' c1)).
Proof.
  split; [apply UpdateView_in_sync|].
  split; [intros; apply UpdateView_in_sync|].
  split; [intros; apply UpdateView_in_sync|].
  split.
  - intros. rewrite OnUpdate_rotate_eq. apply UpdateView_in_sync.
  - intros. split.
    + unfold c2. rewrite OnUpdate_rotate_eq. apply UpdateView_in_sync.
    + unfold c2. rewrite OnUpdate_mPosition. unfold c1.
      rewrite OnUpdate_mPosition. reflexivity.
Qed.

(** X5: the mouse position of a frame with [rotate = false] is never
    recorded: the next rotating frame turns by the mouse travel since the
    last ROTATING frame, so its yaw, pitch and basis are those the same
    call would give without the frame in between. *)
Theorem OnUpdate_no_rotate_mouse_ignored
    (deltaTime deltaTime' : Z) (fl fl' : CameraMovementFlags)
    (mousePos mousePos' : vec2) (c : EditorCamera) :
  let c1 := OnUpdate deltaTime fl mousePos false c in
  let c2 := OnUpdate deltaTime' fl' mousePos' true c1 in
  let direct := OnUpdate deltaTime' fl' mousePos' true c in
  mYaw c2 = mYaw c + (x2 mousePos' - mLastMouseX c) * mRotationSpeed c /\
  mPitch c2 =
    clamped_pitch
      (mPitch c - (y2 mousePos' - mLastMouseY c) * mRotationSpeed c) /\
  mYaw c2 = mYaw direct /\
  mPitch c2 = mPitch direct /\
  mForwardDirection c2 = mForwardDirection direct /\
  mRightDirection c2 = mRightDirection direct /\
  mUpDirection c2 = mUpDirection direct /\
  mLastMouseX c2 = x2 mousePos' /\
  mLastMouseY c2 = y2 mousePos'.
Proof.
  intros c1 c2 direct. unfold c2, direct, c1.
  rewrite !OnUpdate_rotate_eq, OnUpdate_no_rotate_eq.
  repeat split.
Qed.

(** X6: within one frame movement and rotation do not influence each
    other: the new position is the same whatever the mouse position and the
    [rotate] argument (the camera moves along the basis held before the
    call, also when the call turns it), and the new yaw, pitch, basis and
    recorded mouse position are the same whatever the duration and the
    flags. *)
Theorem OnUpdate_movement_rotation_independent
    (deltaTime deltaTime' : Z) (fl fl' : CameraMovementFlags)
    (mousePos mousePos' : vec2) (rotate rotate' : bool) (c : EditorCamera) :
  mPosition (OnUpdate deltaTime fl mousePos rotate c) =
    mPosition (OnUpdate deltaTime fl mousePos' rotate' c) /\
  (let a := OnUpdate deltaTime fl mousePos true c in
   let b := OnUpdate deltaTime' fl' mousePos true c in
   mYaw a = mYaw b /\ mPitch a = mPitch b /\
   mForwardDirection a = mForwardDirection b /\
   mRightDirection a = mRightDirection b /\
   mUpDirection a = mUpDirection b /\
   mLastMouseX a = mLastMouseX b /\ mLastMouseY a = mLastMouseY b).
Proof.
  split.
  - rewrite !OnUpdate_mPosition. reflexivity.
  - intros a b. unfold a, b. rewrite !OnUpdate_rotate_eq. repeat split.
Qed.

(** X7: for [SetCameraSpec] the last specification wins, the projection
    depends on the specification alone (the constructor's is that of the
    default specification), and the call commutes with [SetPosition],
    [SetOrientation] and [OnUpdate]. *)
Theorem SetCameraSpec_composes
    (specs specs' : EditorCameraSpecs) (c d : EditorCamera) :
  SetCameraSpec specs (SetCameraSpec specs' c) = SetCameraSpec specs c /\
  mProjection (SetCameraSpec specs c) = mProjection (SetCameraSpec specs d) /\
  mProjection (SetCameraSpec EditorCameraSpecs_default c) =
    mProjection EditorCamera_new /\
  (forall position : vec3,
     SetCameraSpec specs (SetPosition position c) =
     SetPosition position (SetCameraSpec specs c)) /\
  (forall o : mat3,
     SetCameraSpec specs (SetOrientation o c) =
     SetOrientation o (SetCameraSpec specs c)) /\
  (forall (deltaTime : Z) (fl : CameraMovementFlags) (mousePos : vec2)
          (rotate : bool),
     SetCameraSpec specs (OnUpdate deltaTime fl mousePos rotate c) =
     OnUpdate deltaTime fl mousePos rotate (SetCameraSpec specs c)).
Proof.
  split; [reflexivity|].
  split; [reflexivity|].
  split; [reflexivity|].
  split; [reflexivity|].
  split; [reflexivity|].
  intros. destruct rotate; [|reflexivity].
  rewrite !OnUpdate_rotate_eq. reflexivity.
Qed.

(** X8: [SetPosition] stores the position, the last position wins, and
    the basis it re-derives depends neither on the position nor on the
    basis held before (only on yaw and pitch). *)
Theorem SetPosition_composes (p q : vec3) (c : EditorCamera) :
  mPosition (SetPosition p c) = p /\
  SetPosition p (SetPosition q c) = SetPosition p c /\
  mForwardDirection (SetPosition p c) = mForwardDirection (SetPosition q c) /\
  mRightDirection (SetPosition p c) = mRightDirection (SetPosition q c) /\
  mUpDirection (SetPosition p c) = mUpDirection (SetPosition q c) /\
  (forall f r u : vec3,
     SetPosition p
       (set_mUpDirection u (set_mRightDirection r
          (set_mForwardDirection f c))) = SetPosition p c).
Proof. repeat split. Qed.

(** X9: of the orientation matrix, the x and y columns reach the stored
    roll only (the three basis vectors assigned from the columns are
    overwritten by the view recomputation); the last orientation wins; the
    angles and basis held before do not matter; position, projection and
    last mouse coordinates are kept. *)
Theorem SetOrientation_composes
    (x y x' y' z : vec3) (o o' : mat3) (c : EditorCamera) :
  (let a := SetOrientation (MkMat3 x y z) c in
   let b := SetOrientation (MkMat3 x' y' z) c in
   b = set_mRoll (mRoll b) a) /\
  SetOrientation o (SetOrientation o' c) = SetOrientation o c /\
  (forall (yaw pitch roll : float) (f r u : vec3),
     SetOrientation o
       (set_mRoll roll (set_mPitch pitch (set_mYaw yaw
          (set_mUpDirection u (set_mRightDirection r
             (set_mForwardDirection f c)))))) = SetOrientation o c) /\
  mPosition (SetOrientation o c) = mPosition c /\
  mProjection (SetOrientation o c) = mProjection c /\
  mLastMouseX (SetOrientation o c) = mLastMouseX c /\
  mLastMouseY (SetOrientation o c) = mLastMouseY c.
Proof. repeat split. Qed.

End MoreDataFlow.

(** ** Movement on binary32 *)

(** X10: Forward and Backward cancel.  On binary32, when the forward
    vector scaled by the linear speed and the seconds elapsed has finite
    coordinates, the position after [OnUpdate] with both flags set is the
    one with both cleared, whatever the other flags are. *)
Theorem forward_backward_cancel
    (lm : Libm) (deltaTime : Z) (fl : CameraMovementFlags)
    (mousePos : @vec2 (F32 lm)) (rotate : bool)
    (c : @EditorCamera (F32 lm)) :
  let step :=
    vscale (mForwardDirection c)
      (mMoveSpeed c * (ofZ deltaTime / NanoSecondsTicksInOneSecond))%flt
  in
  is_finite32 (vx step) = true ->
  is_finite32 (vy step) = true ->
  is_finite32 (vz step) = true ->
  mPosition
    (OnUpdate deltaTime (SetFlag Forward (SetFlag Backward fl)) mousePos
       rotate c) =
  mPosition
    (OnUpdate deltaTime (ClearFlag Forward (ClearFlag Backward fl)) mousePos
       rotate c).
Proof.
  intros step Hx Hy Hz.
  rewrite !OnUpdate_mPosition. f_equal.
  unfold OnUpdate_movement. cbv zeta.
  repeat (rewrite HasFlag_SetFlag || rewrite HasFlag_ClearFlag).
  cbn [CameraMovement_eqb orb negb andb].
  fold step.
  assert (vsub (vadd (vec3_splat (ofZ 0)) step) step =
          vec3_splat (S:=F32 lm) (ofZ 0)) as Hcancel.
  { unfold vsub, vadd, vec3_splat. cbn [vx vy vz fadd fsub ofZ F32].
    change (f32_of_Z 0) with (S754_zero false).
    rewrite !SFsub_add_zero_self by assumption. reflexivity. }
  rewrite Hcancel. reflexivity.
Qed.

(** X10 at the constructed camera, with the Left flag set as well. *)
Lemma forward_backward_cancel_witness :
  let c := EditorCamera_new (S:=F32 libm_points) in
  let m := @MkVec2 (F32 libm_points) (f32_of_Z 0) (f32_of_Z 0) in
  let step :=
    vscale (mForwardDirection c)
      (mMoveSpeed c * (ofZ 16000000 / NanoSecondsTicksInOneSecond))%flt in
  (is_finite32 (vx step) = true /\
   is_finite32 (vy step) = true /\
   is_finite32 (vz step) = true) /\
  mPosition
    (OnUpdate 16000000
       (SetFlag Forward (SetFlag Backward (Flags_of Left))) m false c) =
  mPosition
    (OnUpdate 16000000
       (ClearFlag Forward (ClearFlag Backward (Flags_of Left))) m false c).
Proof.
  intros c m step. split.
  - repeat split.
  - apply (@forward_backward_cancel libm_points 16000000 (Flags_of Left) m
             false c); reflexivity.
Defined.

(** X11: with no flag set [OnUpdate] adds the zero vector to the
    position, whatever [deltaTime], the linear speed and the basis are:
    every coordinate stays the number it was, a negative zero becoming the
    positive zero. *)
Theorem OnUpdate_no_flag_stays_put
    (lm : Libm) (deltaTime : Z) (fl : CameraMovementFlags)
    (mousePos : @vec2 (F32 lm)) (rotate : bool)
    (c : @EditorCamera (F32 lm)) :
  (forall m, HasFlag fl m = false) ->
  let p := mPosition c in
  let p' := mPosition (OnUpdate deltaTime fl mousePos rotate c) in
  same_but_zero_sign (vx p) (vx p') /\
  same_but_zero_sign (vy p) (vy p') /\
  same_but_zero_sign (vz p) (vz p').
Proof.
  intros H p p'. unfold p'.
  rewrite OnUpdate_mPosition, OnUpdate_movement_no_flag by exact H.
  unfold vadd, vec3_splat. cbn [vx vy vz fadd ofZ F32].
  change (f32_of_Z 0) with (S754_zero false).
  split; [|split]; apply SFadd_zero_r.
Qed.

(** X11 at the constructed camera, with the mouse moved and
    [rotate = true]. *)
Lemma OnUpdate_no_flag_stays_put_witness :
  let c := EditorCamera_new (S:=F32 libm_points) in
  let c' :=
    OnUpdate 16000000 Flags_empty
      (@MkVec2 (F32 libm_points) (f32_of_Z 3) (f32_of_Z 4)) true c in
  (forall m, HasFlag Flags_empty m = false) /\
  same_but_zero_sign (vx (mPosition c)) (vx (mPosition c')) /\
  same_but_zero_sign (vy (mPosition c)) (vy (mPosition c')) /\
  same_but_zero_sign (vz (mPosition c)) (vz (mPosition c')).
Proof.
  intros c c'. split.
  - exact HasFlag_empty.
  - apply (@OnUpdate_no_flag_stays_put libm_points 16000000 Flags_empty
             (@MkVec2 (F32 libm_points) (f32_of_Z 3) (f32_of_Z 4)) true c
             HasFlag_empty).
Defined.

(** ** The pole on binary32 *)

(** X20: looking straight down is not degenerate on binary32.  With a C
    library that rounds correctly at the angles involved,
    [SetOrientation] with the z column (0,-1,0) stores a yaw of 0 and a
    pitch of exactly 90; the cosine of [radians 90] is -4.37113883e-8 and
    not 0, so the recomputed forward vector (-4.37113883e-8, 1, -0) is not
    parallel to the world up vector, the right vector is (0, 0, -1) and the
    up vector (1, 4.37113883e-8, 0).  Each has the dot product 1 with
    itself and the dot product 0 with the other two, as binary32 computes
    them. *)
Theorem SetOrientation_pole_binary32
    (lm : Libm) (c : @EditorCamera (F32 lm)) :
  libm_rounds_pole_angles lm ->
  let c' := SetOrientation z_down_basis c in
  let f := mForwardDirection c' in
  let r := mRightDirection c' in
  let u := mUpDirection c' in
  (mYaw c' = f32_of_Z 0 /\ mPitch c' = f32_of_Z 90) /\
  (f = @MkVec3 (F32 lm) (f32_of_bits 0xB33BBD2E) (f32_of_Z 1)
         (S754_zero true) /\
   r = @MkVec3 (F32 lm) (f32_of_Z 0) (f32_of_Z 0) (f32_of_Z (-1)) /\
   u = @MkVec3 (F32 lm) (f32_of_Z 1) (f32_of_bits 0x333BBD2E)
         (f32_of_Z 0)) /\
  (dot f f = f32_of_Z 1 /\ dot r r = f32_of_Z 1 /\ dot u u = f32_of_Z 1) /\
  (dot f r = f32_of_Z 0 /\ dot f u = f32_of_Z 0 /\ dot r u = f32_of_Z 0).
Proof.
  intros (Hasin & Hatan & Hsp & Hcp & Hs0 & Hc0) c' f r u.
  destruct (SetOrientation_yaw_pitch (z_down_basis (S:=F32 lm)) c)
    as [Hyaw Hpitch].
  destruct (SetOrientation_basis (z_down_basis (S:=F32 lm)) c)
    as (Hf & Hr & Hu).
  fold c' in Hyaw, Hpitch, Hf, Hr, Hu. fold f in Hf, Hr, Hu.
  fold r in Hr, Hu. fold u in Hu.
  libm_simpl lm.
  change (vx (col2 (z_down_basis (S:=F32 lm)))) with (S754_zero false)
    in Hyaw.
  change (vz (col2 (z_down_basis (S:=F32 lm)))) with (S754_zero false)
    in Hyaw.
  change (fneg (vy (col2 (z_down_basis (S:=F32 lm))))) with (f32_of_Z 1)
    in Hpitch.
  rewrite Hatan in Hyaw. rewrite Hasin in Hpitch.
  change (degrees (S:=F32 lm) (S754_zero false)) with (f32_of_Z 0) in Hyaw.
  change (degrees (S:=F32 lm) pole_rad) with (f32_of_Z 90) in Hpitch.
  rewrite Hyaw, Hpitch in Hf.
  change (radians (S:=F32 lm) (f32_of_Z 0)) with pitch0_rad in Hf.
  change (radians (S:=F32 lm) (f32_of_Z 90)) with pole_rad in Hf.
  rewrite Hsp, Hcp, Hs0, Hc0 in Hf.
  assert (f = @MkVec3 (F32 lm) (f32_of_bits 0xB33BBD2E) (f32_of_Z 1)
                (S754_zero true)) as Hf'
    by (rewrite Hf; reflexivity).
  assert (r = @MkVec3 (F32 lm) (f32_of_Z 0) (f32_of_Z 0) (f32_of_Z (-1)))
    as Hr'
    by (rewrite Hr, Hf'; reflexivity).
  assert (u = @MkVec3 (F32 lm) (f32_of_Z 1) (f32_of_bits 0x333BBD2E)
                (f32_of_Z 0)) as Hu'
    by (rewrite Hu, Hr', Hf'; reflexivity).
  split; [split; assumption|].
  split; [split; [|split]; assumption|].
  rewrite Hf', Hr', Hu'. repeat split.
Qed.

(** X20 with the C library of the examples, at the constructed camera. *)
Lemma SetOrientation_pole_binary32_witness :
  libm_rounds_pole_angles libm_points /\
  mRightDirection
    (SetOrientation z_down_basis (EditorCamera_new (S:=F32 libm_points))) =
  @MkVec3 (F32 libm_points) (f32_of_Z 0) (f32_of_Z 0) (f32_of_Z (-1)).
Proof.
  assert (libm_rounds_pole_angles libm_points) as H by (repeat split).
  split.
  - exact H.
  - apply (proj1 (proj2 (proj1 (proj2
             (@SetOrientation_pole_binary32 libm_points EditorCamera_new
                H))))).
Defined.
